(** * Discover field renderers and the thread selector

    A shallow embedding of
    [src/sentry/static/sentry/app/utils/discover/fieldRenderers.tsx] and of the
    [ThreadSelector] component, with the properties stated about them.

    JavaScript numbers are IEEE 754 binary64 values, so they are modelled by
    Rocq's primitive floats.  JSX elements are data: they are modelled by an
    inductive type with one constructor per component the code instantiates.
    Functions the two files import from elsewhere are collected in the
    [Imports] class and every definition is parametric in them. *)

From Stdlib Require Import ZArith Floats String Ascii List Bool Lia.
From Stdlib Require Import DecimalString DecimalPos DecimalN.
Import ListNotations.

Set Warnings "-register-all".

Local Open Scope string_scope.
Local Open Scope list_scope.

(* ================================================================== *)
(** * JavaScript values and the built-ins the code relies on *)
(* ================================================================== *)

Module Js.

(** Values a property read on a result row can yield: what JSON decoding
    stores in the row, and [JNative name], the built-in function or object
    that the member [name] of [Object.prototype] is, which a read of a key the
    row does not own reaches through the prototype chain. *)
Inductive JsValue : Type :=
| JUndefined
| JNull
| JBool (b : bool)
| JNum (x : float)
| JStr (s : string)
| JArr (l : list JsValue)
| JNative (name : string).

(** A thrown exception. *)
Inductive JsError : Type :=
| TypeError (msg : string).

(** The outcome of evaluating an expression: a value, or a throw. *)
Inductive Result (A : Type) : Type :=
| Ok (a : A)
| Throw (e : JsError).
Arguments Ok {A} a.
Arguments Throw {A} e.

Definition bind {A B : Type} (m : Result A) (k : A -> Result B) : Result B :=
  match m with
  | Ok a => k a
  | Throw e => Throw e
  end.


(** ** Objects used as ordered maps

    A plain object is the list of its own enumerable string-keyed
    properties, in the order [for ... in] visits them.  Its prototype is
    [Object.prototype], whose members are not enumerable: a property read of
    a key the object does not own yields the inherited member when the key
    names one, and [undefined] otherwise. *)

Fixpoint lookup {A : Type} (o : list (string * A)) (key : string) : option A :=
  match o with
  | [] => None
  | (k, v) :: rest => if String.eqb k key then Some v else lookup rest key
  end.

Definition hasOwnProperty {A : Type} (o : list (string * A)) (key : string) : bool :=
  match lookup o key with
  | Some _ => true
  | None => false
  end.

Definition keys {A : Type} (o : list (string * A)) : list string := map fst o.

(** The members of [Object.prototype], Annex B accessors included. *)
Definition Object_prototype_keys : list string :=
  [ "constructor"; "hasOwnProperty"; "isPrototypeOf"; "propertyIsEnumerable";
    "toLocaleString"; "toString"; "valueOf"; "__proto__";
    "__defineGetter__"; "__defineSetter__"; "__lookupGetter__";
    "__lookupSetter__" ].

Definition is_Object_prototype_key (key : string) : bool :=
  existsb (String.eqb key) Object_prototype_keys.

(** [o[key]] on a plain object. *)
Definition get (o : list (string * JsValue)) (key : string) : JsValue :=
  match lookup o key with
  | Some v => v
  | None => if is_Object_prototype_key key then JNative key else JUndefined
  end.




(** ** typeof, truthiness, Array.isArray *)


Definition typeof_string (v : JsValue) : bool :=
  match v with
  | JStr _ => true
  | _ => false
  end.

Definition Array_isArray (v : JsValue) : bool :=
  match v with
  | JArr _ => true
  | _ => false
  end.

(** ToBoolean: [undefined], [null], [false], [+0], [-0], [NaN] and the empty
    string are falsy, everything else (arrays included) is truthy. *)
Definition ToBoolean (v : JsValue) : bool :=
  match v with
  | JUndefined | JNull => false
  | JBool b => b
  | JNum x => negb (PrimFloat.is_zero x || PrimFloat.is_nan x)
  | JStr s => negb (String.eqb s "")
  | JArr _ => true
  | JNative _ => true
  end.

(** [v !== 0]: strict inequality with the number zero. *)
Definition strict_neq_zero (v : JsValue) : bool :=
  match v with
  | JNum x => negb (PrimFloat.eqb x 0%float)
  | _ => true
  end.

(** [a === b] on the values compared by the code (primitives; two distinct
    array objects are never strictly equal). *)
Definition strict_eq (a b : JsValue) : bool :=
  match a, b with
  | JUndefined, JUndefined => true
  | JNull, JNull => true
  | JBool x, JBool y => Bool.eqb x y
  | JNum x, JNum y => PrimFloat.eqb x y
  | JStr x, JStr y => String.eqb x y
  | JNative x, JNative y => String.eqb x y
  | _, _ => false
  end.

(** ** Numbers *)

(** The Number value of a mathematical integer (round to nearest, ties to
    even). *)
Definition of_Z (z : Z) : float :=
  SF2Prim (binary_normalize prec emax z 0 false).

(** Math.floor. *)
Definition Math_floor (x : float) : float :=
  match Prim2SF x with
  | S754_finite s m e =>
      if (0 <=? e)%Z then x
      else of_Z (Z.shiftr (if s then Z.neg m else Z.pos m) (- e))
  | _ => x
  end.

(** Math.max on two Number arguments: NaN is contagious and [+0] is larger
    than [-0]. *)
Definition Math_max (a b : float) : float :=
  if PrimFloat.is_nan a || PrimFloat.is_nan b then PrimFloat.nan
  else if PrimFloat.ltb b a then a
  else if PrimFloat.ltb a b then b
  else if PrimFloat.get_sign a then b else a.

(** ** Strings *)

Definition startsWith (s searchString : string) : bool :=
  String.prefix searchString s.

(** [s.split(sep)] for a one-character separator: always at least one
    piece. *)
Fixpoint split (sep : ascii) (s : string) : list string :=
  match s with
  | EmptyString => [""]
  | String c rest =>
      if Ascii.eqb c sep then "" :: split sep rest
      else
        match split sep rest with
        | [] => [String c ""]
        | piece :: pieces => String c piece :: pieces
        end
  end.

(** [s.includes(c)] for a one-character search string. *)
Fixpoint includes (s : string) (c : ascii) : bool :=
  match s with
  | EmptyString => false
  | String c' rest => (Ascii.eqb c' c || includes rest c)%bool
  end.

(** [sub] occurs somewhere inside [s]. *)
Definition occurs_in (sub s : string) : Prop :=
  exists before after : string, s = (before ++ sub ++ after)%string.

(** [arr.pop()] as an expression: the last element, [undefined] on an empty
    array. *)
Definition pop {A : Type} (l : list A) : option A :=
  match rev l with
  | [] => None
  | x :: _ => Some x
  end.

(** [arr.slice(start)] for a possibly negative [start]. *)
Definition Array_slice {A : Type} (l : list A) (start : Z) : list A :=
  let len := Z.of_nat (List.length l) in
  let k := if (start <? 0)%Z then Z.max (len + start) 0 else Z.min start len in
  skipn (Z.to_nat k) l.

Definition String_slice (s : string) (start : Z) : string :=
  let len := Z.of_nat (String.length s) in
  let k := if (start <? 0)%Z then Z.max (len + start) 0 else Z.min start len in
  String.substring (Z.to_nat k) (String.length s - Z.to_nat k) s.

(** The method call [v.slice(start)] on a dynamically typed receiver:
    arrays and strings have the method, reading it off [undefined] or [null]
    throws, and calling the missing method of a number or boolean throws. *)
Definition call_slice (v : JsValue) (start : Z) : Result JsValue :=
  match v with
  | JArr l => Ok (JArr (Array_slice l start))
  | JStr s => Ok (JStr (String_slice s start))
  | JUndefined | JNull => Throw (TypeError "Cannot read properties of undefined")
  | JBool _ | JNum _ | JNative _ => Throw (TypeError "slice is not a function")
  end.

(** White space skipped by [parseInt] (the ASCII part of StrWhiteSpaceChar). *)
Definition isStrWhiteSpaceChar (c : ascii) : bool :=
  let n := nat_of_ascii c in
  (Nat.eqb n 9 || Nat.eqb n 10 || Nat.eqb n 11 || Nat.eqb n 12
   || Nat.eqb n 13 || Nat.eqb n 32)%bool.

Fixpoint trimStart (s : string) : string :=
  match s with
  | String c rest => if isStrWhiteSpaceChar c then trimStart rest else s
  | EmptyString => s
  end.

Definition digit_of (c : ascii) : option Z :=
  let n := nat_of_ascii c in
  if (Nat.leb 48 n && Nat.leb n 57)%bool then Some (Z.of_nat (n - 48)) else None.

(** The longest prefix of decimal digits, as (number of digits, value). *)
Fixpoint leading_digits (s : string) (count : nat) (acc : Z) : nat * Z :=
  match s with
  | String c rest =>
      match digit_of c with
      | Some d => leading_digits rest (S count) (10 * acc + d)%Z
      | None => (count, acc)
      end
  | EmptyString => (count, acc)
  end.

(** [parseInt(s, 10)]. *)
Definition parseInt10 (s : string) : float :=
  let s1 := trimStart s in
  let '(negative, s2) :=
    match s1 with
    | String "-" rest => (true, rest)
    | String "+" rest => (false, rest)
    | _ => (false, s1)
    end in
  let '(count, mathInt) := leading_digits s2 0 0%Z in
  match count with
  | O => PrimFloat.nan
  | S _ => if negative then PrimFloat.opp (of_Z mathInt) else of_Z mathInt
  end.

(** ** Conversions that need the host's number parser and printer *)

(** Built-ins of the language left abstract: the numeric value of a string
    literal, and the decimal printing of a Number. *)
Class Builtins : Type := {
  StringToNumber : string -> float;
  Number_toString : float -> string;
  Number_toFixed : float -> Z -> string;
  (* the string conversion of the [Object.prototype] member of that name *)
  Native_toString : string -> string
}.

Section Conversions.
Context {builtins : Builtins}.

(** ToString, as applied by template literals. *)
Fixpoint ToString (v : JsValue) : string :=
  match v with
  | JUndefined => "undefined"
  | JNull => "null"
  | JBool true => "true"
  | JBool false => "false"
  | JNum x => Number_toString x
  | JStr s => s
  | JArr l =>
      let element (e : JsValue) : string :=
        match e with
        | JUndefined | JNull => ""
        | _ => ToString e
        end in
      String.concat "," (map element l)
  | JNative name => Native_toString name
  end.

(** ToNumber, as applied by [/], [*] and [Math.max]. *)
Definition ToNumber (v : JsValue) : float :=
  match v with
  | JUndefined => PrimFloat.nan
  | JNull => 0%float
  | JBool true => 1%float
  | JBool false => 0%float
  | JNum x => x
  | JStr s => StringToNumber s
  | JArr _ | JNative _ => StringToNumber (ToString v)
  end.

End Conversions.

End Js.

(* ================================================================== *)
(** * fieldRenderers.tsx *)
(* ================================================================== *)

Module FieldRenderers.
Import Js.

(** ** Types *)

Record Organization : Type := { slug : string }.

Record Location : Type := { pathname : string }.

Record RenderFunctionBaggage : Type := {
  organization : Organization;
  location : Location
}.

(** A row of the result table. *)
Definition EventData : Type := list (string * JsValue).

(** Field name to declared type tag. *)
Definition MetaType : Type := list (string * string).

(** A project record as handed out by the [Projects] lookup. *)
Record Project : Type := { project_slug : string; project_name : string }.

(** The [project] prop of [ProjectBadge]: a found record or [{slug}]. *)
Inductive ProjectProp : Type :=
| FoundProject (p : Project)
| SlugOnly (slug_value : JsValue).

Record UserObj : Type := {
  user_id : JsValue;
  user_name : JsValue;
  user_email : JsValue;
  user_username : JsValue;
  user_ip_address : string
}.

(** React nodes built by the render functions. *)
Inductive Element : Type :=
| Raw (v : JsValue)
| Span (child : Element)
| Container (child : Element)
| NumberContainer (child : Element)
| BarContainer (child : Element)
| EmptyValueContainer (child : Element)
| VersionContainer (child : Element)
| StyledDateTime (date : JsValue)
| Duration (seconds : float) (fixedDigits : Z) (abbreviation : bool)
| Count (value : float)
| EventId (value : string)
| OverflowLink (to : string) (aria_label : JsValue) (child : Element)
| StyledShortId (shortId : string)
| Projects (orgId : string) (slugs : list JsValue)
           (children : list Project -> Result Element)
| ProjectBadge (project : ProjectProp) (avatarSize : Z)
| UserBadge (user : UserObj) (hideEmail : bool) (avatarSize : Z)
| Version (version : JsValue) (anchor tooltipRawVersion truncate : bool)
| Tooltip (title : Element) (disabled : bool) (containerDisplayMode : string)
          (child : Element)
| ScoreBar (size : Z) (score : float) (palette : list string) (radius : Z).

(** How React lays out a value used as a child: an array stands for its
    elements, flattened; [undefined], [null] and booleans produce no node;
    any other value is handed on as a node of its own. *)
Fixpoint child_nodes (v : JsValue) : list JsValue :=
  match v with
  | JUndefined | JNull | JBool _ => []
  | JNum _ | JStr _ | JNative _ => [v]
  | JArr l => flat_map child_nodes l
  end.

Definition FieldFormatterRenderFunction : Type :=
  string -> EventData -> RenderFunctionBaggage -> Result Element.

Definition FieldFormatterRenderFunctionPartial : Type :=
  EventData -> RenderFunctionBaggage -> Result Element.

Record FieldFormatter : Type := {
  isSortable : bool;
  renderFunc : FieldFormatterRenderFunction
}.

Definition SpecialFieldRenderFunc : Type :=
  EventData -> RenderFunctionBaggage -> Result Element.

Record SpecialField : Type := {
  sortField : option string;
  specialRenderFunc : SpecialFieldRenderFunc
}.

(** What the module imports from the rest of the application. *)
Class Imports : Type := {
  (* app/locale *)
  t : string -> string;
  tct : string -> list (string * JsValue) -> Element;
  (* app/utils/getDynamicText *)
  getDynamicText : Element -> string -> Element;
  (* app/utils/formatters *)
  formatFloat : float -> Z -> float;
  formatPercentage : float -> string;
  (* app/utils/discover/fields: the alias of an aggregate expression, and
     the table of aggregations (alias, isSortable) in key order *)
  getAggregateAlias : string -> string;
  AGGREGATIONS : list (string * bool);
  (* app/utils/theme *)
  theme_purpleDarkest : string
}.

(** lodash's [partial] with one bound argument. *)
Definition partial {A B C D : Type} (f : A -> B -> C -> D) (a : A) : B -> C -> D :=
  fun b c => f a b c.

Section Renderers.
Context {builtins : Builtins} {imports : Imports}.

Definition emptyValue : Element := Span (Raw (JStr (t "n/a"))).

(** ** FIELD_FORMATTERS *)

Definition boolean_renderFunc : FieldFormatterRenderFunction :=
  fun field data _ =>
    let value := if ToBoolean (get data field) then t "yes" else t "no" in
    Ok (Container (Raw (JStr value))).

Definition date_renderFunc : FieldFormatterRenderFunction :=
  fun field data _ =>
    Ok (Container
          (if ToBoolean (get data field)
           then getDynamicText (StyledDateTime (get data field)) "timestamp"
           else emptyValue)).

Definition duration_renderFunc : FieldFormatterRenderFunction :=
  fun field data _ =>
    Ok (NumberContainer
          match get data field with
          | JNum x => Duration (x / 1000)%float 2 true
          | _ => emptyValue
          end).

Definition integer_renderFunc : FieldFormatterRenderFunction :=
  fun field data _ =>
    Ok (NumberContainer
          match get data field with
          | JNum x => Count x
          | _ => emptyValue
          end).

Definition number_renderFunc : FieldFormatterRenderFunction :=
  fun field data _ =>
    Ok (NumberContainer
          match get data field with
          | JNum x => Raw (JNum (formatFloat x 4))
          | _ => emptyValue
          end).

Definition percentage_renderFunc : FieldFormatterRenderFunction :=
  fun field data _ =>
    Ok (NumberContainer
          match get data field with
          | JNum x => Raw (JStr (formatPercentage x))
          | _ => emptyValue
          end).

Definition string_renderFunc : FieldFormatterRenderFunction :=
  fun field data _ =>
    bind (if Array_isArray (get data field)
          then call_slice (get data field) (-1)
          else Ok (get data field))
         (fun value => Ok (Container (Raw value))).

Definition FIELD_FORMATTERS : list (string * FieldFormatter) :=
  [ ("boolean", {| isSortable := true; renderFunc := boolean_renderFunc |});
    ("date", {| isSortable := true; renderFunc := date_renderFunc |});
    ("duration", {| isSortable := true; renderFunc := duration_renderFunc |});
    ("integer", {| isSortable := true; renderFunc := integer_renderFunc |});
    ("number", {| isSortable := true; renderFunc := number_renderFunc |});
    ("percentage", {| isSortable := true; renderFunc := percentage_renderFunc |});
    ("string", {| isSortable := true; renderFunc := string_renderFunc |}) ].

(** The declared types that have a formatter: the keys of the table. *)
Definition formatter_types : list string :=
  ["boolean"; "date"; "duration"; "integer"; "number"; "percentage"; "string"].

(** ** SPECIAL_FIELDS *)

(** The target of the issue link, a template literal. *)
Definition issue_target (org : Organization) (issueID : JsValue) : string :=
  "/organizations/" ++ slug org ++ "/issues/" ++ ToString issueID ++ "/".

Definition id_renderFunc : SpecialFieldRenderFunc :=
  fun data _ =>
    match get data "id" with
    | JStr id => Ok (Container (EventId id))
    | _ => Ok (Raw JNull)
    end.

Definition issue_id_renderFunc : SpecialFieldRenderFunc :=
  fun data baggage =>
    let target := issue_target (organization baggage) (get data "issue.id") in
    Ok (Container
          (OverflowLink target (get data "issue.id") (Raw (get data "issue.id")))).

Definition issue_renderFunc : SpecialFieldRenderFunc :=
  fun data baggage =>
    let issueID := get data "issue.id" in
    if negb (ToBoolean issueID)
    then Ok (Container (StyledShortId (ToString (get data "issue"))))
    else
      let target := issue_target (organization baggage) issueID in
      Ok (Container
            (OverflowLink target issueID
               (StyledShortId (ToString (get data "issue"))))).

Definition project_renderFunc : SpecialFieldRenderFunc :=
  fun data baggage =>
    Ok (Container
          (Projects (slug (organization baggage)) [get data "project"]
             (fun projects =>
                let project :=
                  find (fun p => strict_eq (JStr (project_slug p)) (get data "project"))
                       projects in
                Ok (ProjectBadge
                      match project with
                      | Some p => FoundProject p
                      | None => SlugOnly (get data "project")
                      end
                      16)))).

Definition user_renderFunc : SpecialFieldRenderFunc :=
  fun data _ =>
    let userObj :=
      {| user_id := get data "user";
         user_name := get data "user";
         user_email := get data "user";
         user_username := get data "user";
         user_ip_address := "" |} in
    if ToBoolean (get data "user")
    then
      let badge := UserBadge userObj true 16 in
      Ok (Container badge)
    else Ok (EmptyValueContainer emptyValue).

Definition release_renderFunc : SpecialFieldRenderFunc :=
  fun data _ =>
    if ToBoolean (get data "release")
    then Ok (VersionContainer (Version (get data "release") false true true))
    else Ok (Raw (get data "release")).

Definition SPECIAL_FIELDS : list (string * SpecialField) :=
  [ ("id", {| sortField := Some "id"; specialRenderFunc := id_renderFunc |});
    ("issue.id",
     {| sortField := Some "issue.id"; specialRenderFunc := issue_id_renderFunc |});
    ("issue", {| sortField := None; specialRenderFunc := issue_renderFunc |});
    ("project",
     {| sortField := Some "project"; specialRenderFunc := project_renderFunc |});
    ("user", {| sortField := Some "user.id"; specialRenderFunc := user_renderFunc |});
    ("release",
     {| sortField := Some "release"; specialRenderFunc := release_renderFunc |}) ].

(** ** SPECIAL_FUNCTIONS *)

(** The loop's test, [field.startsWith('user_misery')]. *)
Definition is_misery_key (field : string) : bool := startsWith field "user_misery".

(** The loop over the row's keys: every key that starts with [user_misery]
    overwrites the variable, and the loop runs to the end. *)
Definition find_userMiseryField (data : EventData) : string :=
  fold_left
    (fun userMiseryField field =>
       if startsWith field "user_misery" then field else userMiseryField)
    (keys data) "".

(** [userMiseryField.split('_').pop() || ''] *)
Definition misery_suffix (userMiseryField : string) : string :=
  match pop (split "_" userMiseryField) with
  | Some piece => if String.eqb piece "" then "" else piece
  | None => ""
  end.

Definition misery_title_template : string :=
  "[affectedUsers] out of [totalUsers] ([miseryPercentage]%) unique users waited more than [duration]ms".

(** The body of the renderer after the loop, for the value the loop left in
    [userMiseryField]. *)
Definition user_misery_after_loop (userMiseryField : string)
  : SpecialFieldRenderFunc :=
  fun data _ =>
    let uniqueUsers := get data "count_unique_user" in
    if String.eqb userMiseryField ""
    then Ok (NumberContainer emptyValue)
    else
      let userMisery := get data userMiseryField in
      if (negb (ToBoolean uniqueUsers) && strict_neq_zero uniqueUsers)%bool
      then
        Ok (NumberContainer
              match userMisery with
              | JNum x => Raw (JNum (formatFloat x 4))
              | _ => emptyValue
              end)
      else
        let palette := repeat theme_purpleDarkest 10 in
        let score :=
          Math_floor
            ((ToNumber userMisery / Math_max (ToNumber uniqueUsers) 1)
             * of_Z (Z.of_nat (List.length palette)))%float in
        let miseryLimit := parseInt10 (misery_suffix userMiseryField) in
        let miseryPercentage :=
          Number_toFixed
            ((100 * ToNumber userMisery) / Math_max (ToNumber uniqueUsers) 1)%float
            2 in
        let title :=
          tct misery_title_template
            [ ("affectedUsers", userMisery);
              ("totalUsers", uniqueUsers);
              ("miseryPercentage", JStr miseryPercentage);
              ("duration", JNum (4 * miseryLimit)%float) ] in
        Ok (BarContainer (Tooltip title false "block" (ScoreBar 20 score palette 0))).

Definition user_misery : SpecialFieldRenderFunc :=
  fun data baggage =>
    user_misery_after_loop (find_userMiseryField data) data baggage.

(** The score bar with its tooltip as a function of the misery key: the score
    is [floor((misery / max(users, 1)) * 10)] and the duration shown is four
    times the number parsed from the key's last piece. *)
Definition score_bar_for (data : EventData) (field : string) : Element :=
  let userMisery := get data field in
  let uniqueUsers := get data "count_unique_user" in
  BarContainer
    (Tooltip
       (tct misery_title_template
          [ ("affectedUsers", userMisery);
            ("totalUsers", uniqueUsers);
            ("miseryPercentage",
             JStr (Number_toFixed
                     ((100 * ToNumber userMisery)
                      / Math_max (ToNumber uniqueUsers) 1)%float 2));
            ("duration", JNum (4 * parseInt10 (misery_suffix field))%float) ])
       false "block"
       (ScoreBar 20
          (Math_floor
             ((ToNumber userMisery / Math_max (ToNumber uniqueUsers) 1) * 10)%float)
          (repeat theme_purpleDarkest 10) 0)).

Definition SPECIAL_FUNCTIONS : list (string * SpecialFieldRenderFunc) :=
  [ ("user_misery", user_misery) ].

(** ** getSortField and getFieldRenderer

    Both resolvers only test own properties of the static tables and read
    the metadata object, so they are plain functions; what may throw is the
    render function that [getFieldRenderer] hands out. *)

(** [for (const alias in table) if (name.startsWith(alias)) return ...]:
    the first entry, in key order, whose key is a prefix of [name]. *)
Definition first_prefix_match {A : Type} (table : list (string * A)) (name : string)
  : option (string * A) :=
  find (fun entry => startsWith name (fst entry)) table.

Definition getSortField (field : string) (tableMeta : option MetaType)
  : option string :=
  match lookup SPECIAL_FIELDS field with
  | Some special => sortField special
  | None =>
      match tableMeta with
      | None => Some field
      | Some tableMeta =>
          match first_prefix_match AGGREGATIONS field with
          | Some (_, sortable) => if sortable then Some field else None
          | None =>
              match lookup tableMeta field with
              | Some fieldType =>
                  match lookup FIELD_FORMATTERS fieldType with
                  | Some formatter =>
                      if isSortable formatter then Some field else None
                  | None => None
                  end
              | None => None
              end
          end
      end
  end.

Definition getFieldRenderer (field : string) (meta : MetaType)
  : FieldFormatterRenderFunctionPartial :=
  match lookup SPECIAL_FIELDS field with
  | Some special => specialRenderFunc special
  | None =>
      let fieldName := getAggregateAlias field in
      let fieldType := lookup meta fieldName in
      match first_prefix_match SPECIAL_FUNCTIONS fieldName with
      | Some (_, special_function) => special_function
      | None =>
          match fieldType with
          | Some fieldType =>
              match lookup FIELD_FORMATTERS fieldType with
              | Some formatter => partial (renderFunc formatter) fieldName
              | None => partial string_renderFunc fieldName
              end
          | None => partial string_renderFunc fieldName
          end
      end
  end.

(** ** The same code as a caller outside the type checker reaches it

    The declared types are erased at run time, so a caller can pass
    [undefined] where a metadata object or a row is declared.  The
    definitions below follow the same source lines with the argument allowed
    to be [undefined] and every property read on it able to throw.  A
    metadata read of a key that names a member of [Object.prototype] yields
    a function, which is no own key of FIELD_FORMATTERS, so it resolves like
    a missing key. *)






End Renderers.

End FieldRenderers.

(* ================================================================== *)
(** * The thread selector *)
(* ================================================================== *)

Module ThreadSelector.
Import Js.

(** The fields of a thread the component reads.  [id] and [name] are
    interpolated into a template literal, so they are kept as values. *)
Record Thread : Type := {
  id : JsValue;
  name : JsValue;
  crashed : bool
}.

(** What [filterThreadInfo] returns, as far as the component reads it. *)
Record ThreadInfo : Type := {
  label : JsValue;
  filename : JsValue
}.

Section Selector.
Context {builtins : Builtins}.

(** The event and the exception entry are opaque to the component. *)
Variable Event : Type.
Variable EntryTypeData : Type.

(** The two helpers imported from sibling modules. *)
Variable filterThreadInfo : Thread -> Event -> ThreadInfo.
Variable getThreadException : Thread -> Event -> option EntryTypeData.

(** Calls made to the helpers, recorded in program order. *)
Inductive Call : Type :=
| CallFilterThreadInfo (thread : Thread) (event : Event)
| CallGetThreadException (thread : Thread) (event : Event).

(** A computation that returns a value and the calls it made. *)
Definition Traced (A : Type) : Type := (A * list Call)%type.

Definition ret {A : Type} (a : A) : Traced A := (a, []).

Definition bindT {A B : Type} (m : Traced A) (k : A -> Traced B) : Traced B :=
  let '(a, calls1) := m in
  let '(b, calls2) := k a in
  (b, calls1 ++ calls2).

Definition do_filterThreadInfo (thread : Thread) (event : Event) : Traced ThreadInfo :=
  (filterThreadInfo thread event, [CallFilterThreadInfo thread event]).

Definition do_getThreadException (thread : Thread) (event : Event)
  : Traced (option EntryTypeData) :=
  (getThreadException thread event, [CallGetThreadException thread event]).

(** [array.map(f)] for a traced [f]. *)
Fixpoint mapT {A B : Type} (f : A -> Traced B) (l : list A) : Traced (list B) :=
  match l with
  | [] => ret []
  | x :: rest =>
      bindT (f x) (fun y => bindT (mapT f rest) (fun ys => ret (y :: ys)))
  end.

(** The props of the [Option] element used as an entry's label. *)
Record OptionProps : Type := {
  option_id : JsValue;
  option_details : ThreadInfo;
  option_name : JsValue;
  option_crashed : bool;
  option_crashedInfo : option EntryTypeData
}.

Record DropDownItem : Type := {
  value : string;
  threadInfo : ThreadInfo;
  thread : Thread;
  item_label : OptionProps
}.

Definition dropDownValue (thread : Thread) (threadInfo : ThreadInfo) : string :=
  "#" ++ ToString (id thread) ++ ": " ++ ToString (name thread) ++ " "
      ++ ToString (label threadInfo) ++ " " ++ ToString (filename threadInfo).

Definition getDropDownItem (event : Event) (thread : Thread) : Traced DropDownItem :=
  bindT (do_filterThreadInfo thread event) (fun threadInfo =>
  let dropDownValue := dropDownValue thread threadInfo in
  bindT (if crashed thread
         then do_getThreadException thread event
         else ret None) (fun crashedInfo =>
  ret {| value := dropDownValue;
         threadInfo := threadInfo;
         thread := thread;
         item_label :=
           {| option_id := id thread;
              option_details := threadInfo;
              option_name := name thread;
              option_crashed := crashed thread;
              option_crashedInfo := crashedInfo |} |})).

(** The [items] prop: [threads.map(getDropDownItem)]. *)
Definition items (threads : list Thread) (event : Event) : Traced (list DropDownItem) :=
  mapT (getDropDownItem event) threads.

(** [handleOnChange]: forwards the chosen thread to [onChange] when the
    owner supplied one. *)
Definition handleOnChange {R : Type} (onChange : option (Thread -> R))
           (item : DropDownItem) : option R :=
  match onChange with
  | Some callback => Some (callback (thread item))
  | None => None
  end.

(** The props of the [SelectedOption] element shown inside the button. *)
Record SelectedOptionProps : Type := {
  selected_id : JsValue;
  selected_details : ThreadInfo
}.

(** The props of the dropdown button the render prop builds. *)
Record DropdownButtonProps : Type := {
  button_size : string;
  button_isOpen : bool;
  button_align : string;
  button_child : SelectedOptionProps
}.

(** The render prop handed to the dropdown,
    [({isOpen, selectedItem}) => ...]: the selected entry when there is one,
    otherwise the active thread with freshly computed thread info. *)
Definition renderButton (activeThread : Thread) (event : Event)
           (isOpen : bool) (selectedItem : option DropDownItem)
  : Traced DropdownButtonProps :=
  bindT
    match selectedItem with
    | Some selected =>
        ret {| selected_id := id (thread selected);
               selected_details := threadInfo selected |}
    | None =>
        bindT (do_filterThreadInfo activeThread event) (fun details =>
        ret {| selected_id := id activeThread; selected_details := details |})
    end
    (fun child =>
       ret {| button_size := "small";
              button_isOpen := isOpen;
              button_align := "left";
              button_child := child |}).

End Selector.

Arguments CallFilterThreadInfo {Event} thread event.
Arguments value {EntryTypeData} d.
Arguments threadInfo {EntryTypeData} d.
Arguments thread {EntryTypeData} d.
Arguments item_label {EntryTypeData} d.
Arguments option_id {EntryTypeData} o.
Arguments option_details {EntryTypeData} o.
Arguments option_name {EntryTypeData} o.
Arguments option_crashed {EntryTypeData} o.
Arguments option_crashedInfo {EntryTypeData} o.
Arguments CallGetThreadException {Event} thread event.

End ThreadSelector.

(* ================================================================== *)
(** * Concrete environments used to run the definitions *)
(* ================================================================== *)

Module Sample.
Import Js FieldRenderers.

(** Stand-ins for the abstract built-ins; none of the rows evaluated below
    reaches the number parser. *)
Definition builtins : Builtins :=
  {| StringToNumber := fun _ => PrimFloat.nan;
     Number_toString := fun _ => "<number>";
     Number_toFixed := fun _ _ => "<fixed>";
     Native_toString :=
       fun name => ("function " ++ name ++ "() { [native code] }")%string |}.

(** Stand-ins for the imported functions: identity translations, an
    aggregate alias that leaves plain column names alone, and a table with
    one sortable and one unsortable aggregation. *)
Definition imports : Imports :=
  {| t := fun s => s;
     tct := fun template args => Raw (JArr (JStr template :: map snd args));
     getDynamicText := fun value _ => value;
     formatFloat := fun x _ => x;
     formatPercentage := fun _ => "<percentage>";
     getAggregateAlias := fun field => field;
     AGGREGATIONS := [("count", true); ("last_seen", false)];
     theme_purpleDarkest := "#392f5f" |}.

Definition baggage : RenderFunctionBaggage :=
  {| organization := {| slug := "acme" |};
     location := {| pathname := "/discover/" |} |}.

(** The row of the documented misery example. *)
Definition misery_row : EventData :=
  [("count_unique_user", JNum 100); ("user_misery_300", JNum 10)].

(** A row with two misery columns. *)
Definition two_misery_row : EventData :=
  [("user_misery_300", JNum 10); ("user_misery_500", JNum 20)].

(** A row whose unique-user count is zero. *)
Definition zero_users_row : EventData :=
  [("count_unique_user", JNum 0); ("user_misery_300", JNum 3)].

(** A row with an array-valued column. *)
Definition tags_row : EventData :=
  [("tags", JArr [JStr "a"; JStr "b"; JStr "c"]); ("title", JStr "boom")].

(** A row with a misery column and no unique-user count. *)
Definition no_count_row : EventData :=
  [("transaction", JStr "/checkout"); ("user_misery_300", JNum 3)].

(** Two threads, the second one crashed, and stand-ins for the two helpers
    of the thread selector over a trivial event. *)
Definition main_thread : ThreadSelector.Thread :=
  {| ThreadSelector.id := JNum 1;
     ThreadSelector.name := JStr "main";
     ThreadSelector.crashed := false |}.

Definition worker_thread : ThreadSelector.Thread :=
  {| ThreadSelector.id := JNum 2;
     ThreadSelector.name := JStr "worker";
     ThreadSelector.crashed := true |}.

Definition filterThreadInfo (th : ThreadSelector.Thread) (event : unit)
  : ThreadSelector.ThreadInfo :=
  {| ThreadSelector.label := ThreadSelector.name th;
     ThreadSelector.filename := JStr "app.js" |}.

Definition getThreadException (th : ThreadSelector.Thread) (event : unit)
  : option string :=
  Some "TypeError".

End Sample.

(* ================================================================== *)
(** * Properties of the lookup tables and of the resolvers *)
(* ================================================================== *)

Import Js FieldRenderers.

Section ResolverProperties.
Context {builtins : Builtins} {imports : Imports}.

Lemma hasOwnProperty_lookup {A : Type} (o : list (string * A)) (key : string) :
  hasOwnProperty o key = false <-> lookup o key = None.
Proof.
  unfold hasOwnProperty. destruct (lookup o key); split; congruence.
Qed.

(** The only special function is keyed by [user_misery], so a prefix match
    in that table is a test of that one prefix. *)
Lemma first_prefix_match_SPECIAL_FUNCTIONS (name : string) :
  first_prefix_match SPECIAL_FUNCTIONS name =
  if startsWith name "user_misery" then Some ("user_misery", user_misery) else None.
Proof.
  unfold first_prefix_match, SPECIAL_FUNCTIONS. simpl.
  destruct (startsWith name "user_misery"); reflexivity.
Qed.

(** C1: [getFieldRenderer] resolves in priority order.  An exact match in
    SPECIAL_FIELDS wins; otherwise a special function whose key is a prefix
    of the aggregate alias of the field wins; otherwise the formatter of the
    type that the metadata declares for the alias is bound to the alias;
    otherwise the string formatter is bound to the alias. *)
Theorem getFieldRenderer_priority (field : string) (meta : MetaType) :
  (forall special,
      lookup SPECIAL_FIELDS field = Some special ->
      getFieldRenderer field meta = specialRenderFunc special)
  /\ (lookup SPECIAL_FIELDS field = None ->
      startsWith (getAggregateAlias field) "user_misery" = true ->
      getFieldRenderer field meta = user_misery)
  /\ (lookup SPECIAL_FIELDS field = None ->
      startsWith (getAggregateAlias field) "user_misery" = false ->
      forall fieldType formatter,
        lookup meta (getAggregateAlias field) = Some fieldType ->
        lookup FIELD_FORMATTERS fieldType = Some formatter ->
        getFieldRenderer field meta
        = partial (renderFunc formatter) (getAggregateAlias field))
  /\ (lookup SPECIAL_FIELDS field = None ->
      startsWith (getAggregateAlias field) "user_misery" = false ->
      (lookup meta (getAggregateAlias field) = None
       \/ exists fieldType,
            lookup meta (getAggregateAlias field) = Some fieldType
            /\ lookup FIELD_FORMATTERS fieldType = None) ->
      getFieldRenderer field meta
      = partial string_renderFunc (getAggregateAlias field)).
Proof.
  unfold getFieldRenderer.
  rewrite first_prefix_match_SPECIAL_FUNCTIONS.
  repeat split.
  - intros special Hspecial. now rewrite Hspecial.
  - intros Hnone Hprefix. now rewrite Hnone, Hprefix.
  - intros Hnone Hprefix fieldType formatter Hmeta Hformatter.
    now rewrite Hnone, Hprefix, Hmeta, Hformatter.
  - intros Hnone Hprefix [Hmeta | [fieldType [Hmeta Hformatter]]];
      rewrite Hnone, Hprefix, Hmeta; [reflexivity | now rewrite Hformatter].
Qed.

(** C6: whatever the metadata argument is, [undefined] included, the sort
    field of [issue] is [null]. *)
Theorem getSortField_issue_null (tableMeta : option MetaType) :
  getSortField "issue" tableMeta = None.
Proof.
  reflexivity.
Qed.

(** C7: without metadata, a field that is not a special field is its own
    sort field; [id], which is a special field, is its own sort field as
    well. *)
Theorem getSortField_no_meta :
  (forall field,
      hasOwnProperty SPECIAL_FIELDS field = false ->
      getSortField field None = Some field)
  /\ getSortField "id" None = Some "id".
Proof.
  split.
  - intros field Hspecial. apply hasOwnProperty_lookup in Hspecial.
    unfold getSortField. now rewrite Hspecial.
  - reflexivity.
Qed.

End ResolverProperties.

(* ================================================================== *)
(** * Properties of the formatters and of the special fields *)
(* ================================================================== *)

Section RendererProperties.
Context {builtins : Builtins} {imports : Imports}.

Lemma lookup_cons {A : Type} (k : string) (v : A) (rest : list (string * A))
      (key : string) :
  lookup ((k, v) :: rest) key = if String.eqb k key then Some v else lookup rest key.
Proof.
  reflexivity.
Qed.

(** [slice(-1)] of a non-empty array is the one-element array of its last
    element. *)
Lemma Array_slice_last {A : Type} (l : list A) (d : A) :
  l <> [] -> Array_slice l (-1) = [last l d].
Proof.
  intros Hne. unfold Array_slice.
  change (-1 <? 0)%Z with true. cbv iota.
  induction l as [| x rest IH]; [congruence |].
  destruct rest as [| y rest'].
  - reflexivity.
  - assert (Hrest : y :: rest' <> []) by congruence.
    specialize (IH Hrest).
    replace (Z.to_nat (Z.max (Z.of_nat (List.length (x :: y :: rest')) + -1) 0))
      with (S (Z.to_nat (Z.max (Z.of_nat (List.length (y :: rest')) + -1) 0))).
    + change (skipn (S ?n) (x :: ?l')) with (skipn n l').
      rewrite IH. reflexivity.
    + cbn [List.length]. lia.
Qed.

(** C4: on a non-empty array the string formatter puts the one-element
    slice holding the last element into the container, which React lays out
    as that element alone; any value that is not an array is put into the
    container as it is.  For ["a","b","c"] the content is "c". *)
Theorem string_formatter_tail (field : string) (data : EventData)
        (baggage : RenderFunctionBaggage) :
  (forall l,
      get data field = JArr l -> l <> [] ->
      string_renderFunc field data baggage
      = Ok (Container (Raw (JArr [last l JUndefined])))
      /\ child_nodes (JArr [last l JUndefined]) = child_nodes (last l JUndefined))
  /\ (Array_isArray (get data field) = false ->
      string_renderFunc field data baggage = Ok (Container (Raw (get data field))))
  /\ string_renderFunc "tags" Sample.tags_row baggage
     = Ok (Container (Raw (JArr [JStr "c"])))
  /\ child_nodes (JArr [JStr "c"]) = [JStr "c"].
Proof.
  split; [| split; [| split; reflexivity]].
  - intros l Harray Hne. split.
    + unfold string_renderFunc. rewrite Harray.
      cbn [Array_isArray call_slice bind].
      now rewrite (Array_slice_last l JUndefined Hne).
    + cbn [child_nodes flat_map]. apply app_nil_r.
  - intros Hnot. unfold string_renderFunc. rewrite Hnot. reflexivity.
Qed.







(** C10: the issue renderer links the short-id badge exactly when the row's
    [issue.id] is truthy.  A falsy [issue.id], which is what an absent one,
    [0] and the empty string are, gives the bare badge. *)
Theorem issue_link_iff_truthy (data : EventData) (baggage : RenderFunctionBaggage) :
  (ToBoolean (get data "issue.id") = false ->
   issue_renderFunc data baggage
   = Ok (Container (StyledShortId (ToString (get data "issue")))))
  /\ (ToBoolean (get data "issue.id") = true ->
      issue_renderFunc data baggage
      = Ok (Container
              (OverflowLink
                 (issue_target (organization baggage) (get data "issue.id"))
                 (get data "issue.id")
                 (StyledShortId (ToString (get data "issue"))))))
  /\ (lookup data "issue.id" = None
      \/ get data "issue.id" = JNum 0
      \/ get data "issue.id" = JStr "" ->
      ToBoolean (get data "issue.id") = false).
Proof.
  unfold issue_renderFunc.
  split; [| split].
  - intros Hfalsy. now rewrite Hfalsy.
  - intros Htruthy. now rewrite Htruthy.
  - intros [Habsent | [Hzero | Hempty]].
    + unfold get. now rewrite Habsent.
    + now rewrite Hzero.
    + now rewrite Hempty.
Qed.

End RendererProperties.

(* ================================================================== *)
(** * Properties of the [user_misery] renderer *)
(* ================================================================== *)

Section MiseryProperties.
Context {builtins : Builtins} {imports : Imports}.

Lemma find_app_last {A : Type} (p : A -> bool) (l : list A) (x : A) :
  find p (l ++ [x])
  = match find p l with
    | Some y => Some y
    | None => if p x then Some x else None
    end.
Proof.
  induction l as [| y rest IH]; cbn.
  - reflexivity.
  - destruct (p y); [reflexivity | exact IH].
Qed.

(** The loop keeps the last key that matches: it is a search from the end
    of the key list. *)
Lemma misery_loop_is_search_from_end (fields : list string) (start : string) :
  fold_left
    (fun userMiseryField field =>
       if startsWith field "user_misery" then field else userMiseryField)
    fields start
  = match find is_misery_key (rev fields) with
    | Some field => field
    | None => start
    end.
Proof.
  revert start.
  induction fields as [| field rest IH]; intros start; cbn [fold_left rev].
  - reflexivity.
  - rewrite IH, find_app_last.
    destruct (find is_misery_key (rev rest)); [reflexivity |].
    unfold is_misery_key.
    destruct (startsWith field "user_misery"); reflexivity.
Qed.

Lemma find_none_iff {A : Type} (p : A -> bool) (l : list A) :
  find p l = None <-> forall x, In x l -> p x = false.
Proof.
  split.
  - intros Hnone x Hin. exact (find_none p l Hnone x Hin).
  - induction l as [| y rest IH]; intros Hall; cbn.
    + reflexivity.
    + rewrite (Hall y (or_introl eq_refl)).
      apply IH. intros x Hin. apply Hall. now right.
Qed.

Lemma find_userMiseryField_last (data : EventData) (before after : list string)
      (field : string) :
  keys data = before ++ field :: after ->
  is_misery_key field = true ->
  (forall k, In k after -> is_misery_key k = false) ->
  find_userMiseryField data = field.
Proof.
  intros Hkeys Hfield Hafter. unfold find_userMiseryField.
  rewrite misery_loop_is_search_from_end, Hkeys.
  rewrite rev_app_distr. cbn [rev]. rewrite <- app_assoc. cbn [app].
  assert (Hnone : find is_misery_key (rev after) = None).
  { apply find_none_iff. intros x Hin. apply Hafter. now apply in_rev. }
  induction (rev after) as [| y rest IH]; cbn [app find].
  - now rewrite Hfield.
  - cbn [find] in Hnone. destruct (is_misery_key y); [discriminate Hnone |].
    now apply IH.
Qed.

Lemma find_userMiseryField_none (data : EventData) :
  (forall k, In k (keys data) -> is_misery_key k = false) ->
  find_userMiseryField data = "".
Proof.
  intros Hall. unfold find_userMiseryField.
  rewrite misery_loop_is_search_from_end.
  replace (find is_misery_key (rev (keys data))) with (@None string); [reflexivity |].
  symmetry. apply find_none_iff. intros x Hin. apply Hall. now apply in_rev.
Qed.

(** A key that starts with [user_misery] is not the empty string, so the
    [!userMiseryField] test fails on it. *)
Lemma misery_key_not_empty (field : string) :
  is_misery_key field = true -> String.eqb field "" = false.
Proof.
  destruct field; [discriminate | reflexivity].
Qed.

(** C2, as the code has it: the misery field is the last key of the row, in
    enumeration order, that starts with [user_misery], and the renderer goes
    on with that key; a row with no such key gets the placeholder in a
    numeric container. *)
Theorem user_misery_field_is_last_match (data : EventData)
        (baggage : RenderFunctionBaggage) :
  (forall before field after,
      keys data = before ++ field :: after ->
      startsWith field "user_misery" = true ->
      (forall k, In k after -> startsWith k "user_misery" = false) ->
      find_userMiseryField data = field
      /\ user_misery data baggage = user_misery_after_loop field data baggage)
  /\ ((forall k, In k (keys data) -> startsWith k "user_misery" = false) ->
      user_misery data baggage = Ok (NumberContainer emptyValue)).
Proof.
  split.
  - intros before field after Hkeys Hfield Hafter.
    assert (Hfound : find_userMiseryField data = field)
      by exact (find_userMiseryField_last data before after field Hkeys Hfield Hafter).
    split; [exact Hfound |].
    unfold user_misery. now rewrite Hfound.
  - intros Hall. unfold user_misery.
    rewrite (find_userMiseryField_none data Hall). reflexivity.
Qed.

(** ** Arithmetic facts *)

(** IEEE equality with zero holds for the two zeros only. *)
Lemma eqb_zero_cases (x : float) :
  PrimFloat.eqb x 0%float = true -> x = 0%float \/ x = (-0)%float.
Proof.
  intros Heq. rewrite FloatAxioms.eqb_spec in Heq.
  rewrite <- (SF2Prim_Prim2SF x).
  destruct (Prim2SF x) as [sign | sign | | sign m e]; cbn in Heq;
    try discriminate Heq.
  - destruct sign; [right | left]; reflexivity.
  - destruct sign; discriminate Heq.
  - destruct sign; discriminate Heq.
Qed.

(** [!v && v !== 0] is false on every number that is not NaN. *)
Lemma number_count_is_present (n : float) :
  PrimFloat.is_nan n = false ->
  (negb (ToBoolean (JNum n)) && strict_neq_zero (JNum n))%bool = false.
Proof.
  intros Hnan. cbn [ToBoolean strict_neq_zero]. rewrite Hnan.
  change (PrimFloat.is_zero n) with (PrimFloat.eqb n 0%float).
  destruct (PrimFloat.eqb n 0%float); reflexivity.
Qed.

(** [!v && v !== 0] holds exactly on the falsy values other than zero. *)
Lemma count_absent_cases (v : JsValue) :
  (negb (ToBoolean v) && strict_neq_zero v)%bool = true ->
  v = JUndefined \/ v = JNull \/ v = JBool false \/ v = JStr ""
  \/ exists x, v = JNum x /\ PrimFloat.is_nan x = true.
Proof.
  destruct v as [| | b | x | s | l | name];
    cbn [ToBoolean strict_neq_zero]; intros Hcond.
  - now left.
  - now right; left.
  - destruct b; [discriminate Hcond | now right; right; left].
  - right; right; right; right. exists x. split; [reflexivity |].
    change (PrimFloat.is_zero x) with (PrimFloat.eqb x 0%float) in Hcond.
    destruct (PrimFloat.eqb x 0%float); [discriminate Hcond |].
    destruct (PrimFloat.is_nan x); [reflexivity | discriminate Hcond].
  - destruct (String.eqb s "") eqn:Hempty; [| discriminate Hcond].
    apply String.eqb_eq in Hempty. subst s. now right; right; right; left.
  - discriminate Hcond.
  - discriminate Hcond.
Qed.

(** ** The suffix of the misery key *)

Lemma split_not_nil (sep : ascii) (s : string) : split sep s <> [].
Proof.
  destruct s as [| c rest]; cbn [split]; [discriminate |].
  destruct (Ascii.eqb c sep); [discriminate |].
  destruct (split sep rest); discriminate.
Qed.

Lemma split_without_separator (sep : ascii) (s : string) :
  includes s sep = false -> split sep s = [s].
Proof.
  induction s as [| c rest IH]; cbn [includes split]; intros Hnone.
  - reflexivity.
  - apply Bool.orb_false_iff in Hnone as [Hc Hrest].
    rewrite Hc, (IH Hrest). reflexivity.
Qed.

(** Splitting distributes over a separator occurrence. *)
Lemma split_at_separator (sep : ascii) (front back : string) :
  split sep (front ++ String sep back) = split sep front ++ split sep back.
Proof.
  induction front as [| c rest IH]; cbn [String.append split].
  - rewrite Ascii.eqb_refl. reflexivity.
  - rewrite IH. destruct (Ascii.eqb c sep); [reflexivity |].
    destruct (split sep rest) as [| piece pieces] eqn:Hsplit;
      [now apply split_not_nil in Hsplit | reflexivity].
Qed.

(** What follows the last underscore of the key is the piece that [pop]
    returns. *)
Lemma misery_suffix_trailing (front suffix : string) :
  includes suffix "_" = false ->
  misery_suffix (front ++ String "_" suffix) = suffix.
Proof.
  intros Hnone. unfold misery_suffix, pop.
  rewrite split_at_separator, (split_without_separator _ _ Hnone).
  rewrite rev_app_distr. cbn [rev app].
  destruct (String.eqb_spec suffix "") as [-> | _]; reflexivity.
Qed.

(** ** The score bar *)

Lemma user_misery_score_path (data : EventData) (baggage : RenderFunctionBaggage) :
  String.eqb (find_userMiseryField data) "" = false ->
  (negb (ToBoolean (get data "count_unique_user"))
   && strict_neq_zero (get data "count_unique_user"))%bool = false ->
  user_misery data baggage = Ok (score_bar_for data (find_userMiseryField data)).
Proof.
  intros Hfield Hcount. unfold user_misery, user_misery_after_loop.
  rewrite Hfield, Hcount. reflexivity.
Qed.

(** C3: when the unique-user count is present (truthy, or zero) the score
    is [floor((misery / max(users, 1)) * 10)] and the tooltip's duration is
    four times the integer parsed from the last piece of the misery key.  A
    number other than NaN is a present count, and the last piece is what
    follows the key's last underscore.  On the row
    [{count_unique_user: 100, user_misery_300: 10}] the score is 1 and the
    duration 1200. *)
Theorem user_misery_score_and_duration :
  (forall data baggage,
      let field := find_userMiseryField data in
      let userMisery := get data field in
      let uniqueUsers := get data "count_unique_user" in
      field <> "" ->
      ToBoolean uniqueUsers = true \/ strict_neq_zero uniqueUsers = false ->
      user_misery data baggage
      = Ok (BarContainer
              (Tooltip
                 (tct misery_title_template
                    [ ("affectedUsers", userMisery);
                      ("totalUsers", uniqueUsers);
                      ("miseryPercentage",
                       JStr (Number_toFixed
                               ((100 * ToNumber userMisery)
                                / Math_max (ToNumber uniqueUsers) 1)%float 2));
                      ("duration",
                       JNum (4 * parseInt10 (misery_suffix field))%float) ])
                 false "block"
                 (ScoreBar 20
                    (Math_floor
                       ((ToNumber userMisery / Math_max (ToNumber uniqueUsers) 1)
                        * 10)%float)
                    (repeat theme_purpleDarkest 10) 0))))
  /\ (forall n,
        PrimFloat.is_nan n = false ->
        ToBoolean (JNum n) = true \/ strict_neq_zero (JNum n) = false)
  /\ (forall front suffix,
        includes suffix "_" = false ->
        misery_suffix (front ++ String "_" suffix) = suffix)
  /\ (forall baggage,
        user_misery Sample.misery_row baggage
        = Ok (BarContainer
                (Tooltip
                   (tct misery_title_template
                      [ ("affectedUsers", JNum 10);
                        ("totalUsers", JNum 100);
                        ("miseryPercentage", JStr (Number_toFixed 10 2));
                        ("duration", JNum 1200) ])
                   false "block"
                   (ScoreBar 20 1 (repeat theme_purpleDarkest 10) 0)))).
Proof.
  split; [| split; [| split]].
  - intros data baggage field userMisery uniqueUsers Hfield Hcount.
    apply user_misery_score_path.
    + apply String.eqb_neq. exact Hfield.
    + destruct Hcount as [Htruthy | Hzero]; fold uniqueUsers.
      * now rewrite Htruthy.
      * rewrite Hzero. apply Bool.andb_false_r.
  - intros n Hnan. pose proof (number_count_is_present n Hnan) as Hcond.
    apply Bool.andb_false_iff in Hcond as [Htruthy | Hzero].
    + left. now apply Bool.negb_false_iff.
    + now right.
  - exact misery_suffix_trailing.
  - intros baggage. rewrite user_misery_score_path; reflexivity.
Qed.

(** C9: a unique-user count of zero, of either sign, is a present count:
    with a misery key in the row the renderer takes the score-bar path, the
    divisor [max(0, 1)] is 1, and the score is [floor((misery / 1) * 10)].
    The formatted-float fallback returns a numeric container, and with a
    misery key in the row that happens only for a count that is [undefined],
    [null], [false], the empty string or NaN. *)
Theorem user_misery_zero_users :
  (forall data baggage n,
      let field := find_userMiseryField data in
      let userMisery := get data field in
      get data "count_unique_user" = JNum n ->
      PrimFloat.eqb n 0 = true ->
      field <> "" ->
      Math_max (ToNumber (JNum n)) 1 = 1%float
      /\ exists title,
          user_misery data baggage
          = Ok (BarContainer
                  (Tooltip title false "block"
                     (ScoreBar 20
                        (Math_floor ((ToNumber userMisery / 1) * 10)%float)
                        (repeat theme_purpleDarkest 10) 0))))
  /\ (forall data baggage child,
        find_userMiseryField data <> "" ->
        user_misery data baggage = Ok (NumberContainer child) ->
        let uniqueUsers := get data "count_unique_user" in
        uniqueUsers = JUndefined \/ uniqueUsers = JNull
        \/ uniqueUsers = JBool false \/ uniqueUsers = JStr ""
        \/ exists x, uniqueUsers = JNum x /\ PrimFloat.is_nan x = true)
  /\ (forall baggage,
        exists title,
          user_misery Sample.zero_users_row baggage
          = Ok (BarContainer
                  (Tooltip title false "block"
                     (ScoreBar 20 30 (repeat theme_purpleDarkest 10) 0)))).
Proof.
  split; [| split].
  - intros data baggage n field userMisery Hcount Hzero Hfield.
    assert (Hmax : Math_max (ToNumber (JNum n)) 1 = 1%float).
    { cbn [ToNumber]. destruct (eqb_zero_cases n Hzero) as [-> | ->]; reflexivity. }
    split; [exact Hmax |].
    eexists. rewrite user_misery_score_path.
    + unfold score_bar_for. fold field. fold userMisery.
      rewrite Hcount, Hmax. reflexivity.
    + apply String.eqb_neq. exact Hfield.
    + rewrite Hcount. cbn [strict_neq_zero]. rewrite Hzero.
      apply Bool.andb_false_r.
  - intros data baggage child Hfield Hresult uniqueUsers.
    apply count_absent_cases. fold uniqueUsers.
    destruct (negb (ToBoolean uniqueUsers) && strict_neq_zero uniqueUsers)%bool
      eqn:Hcond; [reflexivity |].
    rewrite user_misery_score_path in Hresult.
    + discriminate Hresult.
    + apply String.eqb_neq. exact Hfield.
    + exact Hcond.
  - intros baggage. eexists. rewrite user_misery_score_path; reflexivity.
Qed.

End MiseryProperties.

(* ================================================================== *)
(** * Properties of the thread selector *)
(* ================================================================== *)

Section ThreadSelectorProperties.
Context {builtins : Builtins}.
Variable Event : Type.
Variable EntryTypeData : Type.
Variable filterThreadInfo : ThreadSelector.Thread -> Event -> ThreadSelector.ThreadInfo.
Variable getThreadException : ThreadSelector.Thread -> Event -> option EntryTypeData.

Local Abbreviation Thread := ThreadSelector.Thread.
Local Abbreviation getDropDownItem :=
  (ThreadSelector.getDropDownItem Event EntryTypeData filterThreadInfo getThreadException).
Local Abbreviation items :=
  (ThreadSelector.items Event EntryTypeData filterThreadInfo getThreadException).
Local Abbreviation mapT := (ThreadSelector.mapT Event).

Lemma occurs_in_middle (before sub after : string) :
  occurs_in sub (before ++ sub ++ after)%string.
Proof.
  exists before, after. reflexivity.
Qed.

Lemma occurs_in_append_left (prefix sub s : string) :
  occurs_in sub s -> occurs_in sub (prefix ++ s)%string.
Proof.
  intros [before [after ->]]. exists (prefix ++ before)%string, after.
  induction prefix as [| c rest IH]; cbn [String.append]; [reflexivity |].
  now rewrite IH.
Qed.

Lemma occurs_in_start (sub after : string) : occurs_in sub (sub ++ after)%string.
Proof.
  exists "", after. reflexivity.
Qed.

Lemma occurs_in_end (sub : string) : occurs_in sub sub.
Proof.
  exists "", "". cbn [String.append].
  induction sub as [| c rest IH]; cbn [String.append]; [reflexivity |].
  now rewrite <- IH.
Qed.

(** [map] over a traced function returns the mapped values and the
    concatenation of the traces, in order. *)
Lemma mapT_fst {A B : Type} (f : A -> ThreadSelector.Traced Event B) (l : list A) :
  fst (mapT f l) = map (fun x => fst (f x)) l.
Proof.
  induction l as [| x rest IH]; cbn [ThreadSelector.mapT map]; [reflexivity |].
  unfold ThreadSelector.bindT, ThreadSelector.ret.
  destruct (f x) as [y calls]. destruct (mapT f rest) as [ys calls'].
  cbn in *. now rewrite IH.
Qed.

Lemma mapT_snd {A B : Type} (f : A -> ThreadSelector.Traced Event B) (l : list A) :
  snd (mapT f l) = flat_map (fun x => snd (f x)) l.
Proof.
  induction l as [| x rest IH]; cbn [ThreadSelector.mapT flat_map]; [reflexivity |].
  unfold ThreadSelector.bindT, ThreadSelector.ret.
  destruct (f x) as [y calls]. destruct (mapT f rest) as [ys calls'].
  cbn in *. now rewrite IH, app_nil_r.
Qed.

(** The calls one entry makes: the thread info always, the exception only
    for a crashed thread. *)
Lemma getDropDownItem_calls (event : Event) (th : Thread) :
  snd (getDropDownItem event th)
  = ThreadSelector.CallFilterThreadInfo th event
    :: (if ThreadSelector.crashed th
        then [ThreadSelector.CallGetThreadException th event]
        else []).
Proof.
  unfold ThreadSelector.getDropDownItem, ThreadSelector.bindT,
    ThreadSelector.do_filterThreadInfo, ThreadSelector.do_getThreadException,
    ThreadSelector.ret.
  destruct (ThreadSelector.crashed th); reflexivity.
Qed.

(** C8: the dropdown has one entry per thread, in order.  The entry of a
    thread carries that thread and its thread info, its filterable value
    contains the thread's id and name and the info's label and filename, and
    its crashed info is the thread's exception when the thread crashed and
    [undefined] otherwise.  The exception of a thread is fetched exactly when
    the thread is in the list and its crashed flag is set. *)
Theorem dropdown_entry_per_thread (threads : list Thread) (event : Event) :
  fst (items threads event) = map (fun th => fst (getDropDownItem event th)) threads
  /\ (forall th,
        let item := fst (getDropDownItem event th) in
        let info := filterThreadInfo th event in
        ThreadSelector.thread item = th
        /\ ThreadSelector.threadInfo item = info
        /\ ThreadSelector.value item
           = ("#" ++ ToString (ThreadSelector.id th) ++ ": "
                  ++ ToString (ThreadSelector.name th) ++ " "
                  ++ ToString (ThreadSelector.label info) ++ " "
                  ++ ToString (ThreadSelector.filename info))%string
        /\ occurs_in (ToString (ThreadSelector.id th)) (ThreadSelector.value item)
        /\ occurs_in (ToString (ThreadSelector.name th)) (ThreadSelector.value item)
        /\ occurs_in (ToString (ThreadSelector.label info)) (ThreadSelector.value item)
        /\ occurs_in (ToString (ThreadSelector.filename info)) (ThreadSelector.value item)
        /\ ThreadSelector.option_crashedInfo (ThreadSelector.item_label item)
           = (if ThreadSelector.crashed th then getThreadException th event else None)
        /\ (In (ThreadSelector.CallGetThreadException th event)
               (snd (getDropDownItem event th))
            <-> ThreadSelector.crashed th = true))
  /\ (forall th,
        In (ThreadSelector.CallGetThreadException th event) (snd (items threads event))
        <-> In th threads /\ ThreadSelector.crashed th = true).
Proof.
  split; [| split].
  - apply mapT_fst.
  - intros th item info.
    assert (Hitem : item
                    = {| ThreadSelector.value := ThreadSelector.dropDownValue th info;
                         ThreadSelector.threadInfo := info;
                         ThreadSelector.thread := th;
                         ThreadSelector.item_label :=
                           {| ThreadSelector.option_id := ThreadSelector.id th;
                              ThreadSelector.option_details := info;
                              ThreadSelector.option_name := ThreadSelector.name th;
                              ThreadSelector.option_crashed := ThreadSelector.crashed th;
                              ThreadSelector.option_crashedInfo :=
                                if ThreadSelector.crashed th
                                then getThreadException th event else None |} |}).
    { unfold item, info, ThreadSelector.getDropDownItem, ThreadSelector.bindT,
        ThreadSelector.do_filterThreadInfo, ThreadSelector.do_getThreadException,
        ThreadSelector.ret.
      destruct (ThreadSelector.crashed th); reflexivity. }
    rewrite Hitem. cbn [ThreadSelector.value ThreadSelector.threadInfo
                        ThreadSelector.thread ThreadSelector.item_label
                        ThreadSelector.option_crashedInfo].
    unfold ThreadSelector.dropDownValue.
    repeat split.
    + apply occurs_in_middle.
    + do 3 apply occurs_in_append_left. apply occurs_in_start.
    + do 5 apply occurs_in_append_left. apply occurs_in_start.
    + do 7 apply occurs_in_append_left. apply occurs_in_end.
    + rewrite getDropDownItem_calls. intros [Hcall | Hcall]; [discriminate Hcall |].
      destruct (ThreadSelector.crashed th); [reflexivity | destruct Hcall].
    + intros Hcrashed. rewrite getDropDownItem_calls, Hcrashed. right. now left.
  - intros th. unfold ThreadSelector.items. rewrite mapT_snd, in_flat_map. split.
    + intros [th' [Hin Hcall]]. rewrite getDropDownItem_calls in Hcall.
      destruct Hcall as [Hcall | Hcall]; [discriminate Hcall |].
      destruct (ThreadSelector.crashed th') eqn:Hcrashed; [| destruct Hcall].
      destruct Hcall as [Hcall | []]. injection Hcall as ->. now split.
    + intros [Hin Hcrashed]. exists th. split; [exact Hin |].
      rewrite getDropDownItem_calls, Hcrashed. right. now left.
Qed.

End ThreadSelectorProperties.

(* ================================================================== *)
(** * The properties at concrete rows *)
(* ================================================================== *)

Section WorkedExamples.

Local Existing Instance Sample.builtins.
Local Existing Instance Sample.imports.

(** On a row with two misery columns the first key that matches is
    [user_misery_300], yet the loop ends on [user_misery_500] and the value
    shown is that column's 20, not the first column's 10. *)
Lemma user_misery_first_match_refuted :
  find is_misery_key (keys Sample.two_misery_row) = Some "user_misery_300"
  /\ find_userMiseryField Sample.two_misery_row = "user_misery_500"
  /\ user_misery Sample.two_misery_row Sample.baggage
     = Ok (NumberContainer (Raw (JNum 20)))
  /\ user_misery Sample.two_misery_row Sample.baggage
     <> user_misery_after_loop "user_misery_300" Sample.two_misery_row Sample.baggage.
Proof.
  repeat split; try reflexivity.
  intros Hsame.
  pose proof
       (f_equal
          (fun result =>
             match result with
             | Ok (NumberContainer (Raw (JNum shown))) => PrimFloat.eqb shown 10
             | _ => true
             end) Hsame) as Hshown.
  vm_compute in Hshown. discriminate Hshown.
Qed.


(** The four levels of the resolver, each reached by a field. *)
Lemma getFieldRenderer_priority_witness :
  getFieldRenderer "release" [] = release_renderFunc
  /\ getFieldRenderer "user_misery_300" [] = user_misery
  /\ getFieldRenderer "count" [("count", "integer")] = partial integer_renderFunc "count"
  /\ getFieldRenderer "title" [("title", "never")] = partial string_renderFunc "title".
Proof.
  split; [| split; [| split]].
  - exact (proj1 (getFieldRenderer_priority "release" [])
             {| sortField := Some "release"; specialRenderFunc := release_renderFunc |}
             eq_refl).
  - exact (proj1 (proj2 (getFieldRenderer_priority "user_misery_300" []))
             eq_refl eq_refl).
  - exact (proj1 (proj2 (proj2
             (getFieldRenderer_priority "count" [("count", "integer")])))
             eq_refl eq_refl "integer"
             {| isSortable := true; renderFunc := integer_renderFunc |}
             eq_refl eq_refl).
  - exact (proj2 (proj2 (proj2
             (getFieldRenderer_priority "title" [("title", "never")])))
             eq_refl eq_refl
             (or_intror (ex_intro _ "never" (conj eq_refl eq_refl)))).
Defined.

(** A row with two misery columns, and a row with none. *)
Lemma user_misery_field_is_last_match_witness :
  (find_userMiseryField Sample.two_misery_row = "user_misery_500"
   /\ user_misery Sample.two_misery_row Sample.baggage
      = user_misery_after_loop "user_misery_500" Sample.two_misery_row Sample.baggage)
  /\ user_misery Sample.tags_row Sample.baggage = Ok (NumberContainer emptyValue).
Proof.
  split.
  - apply (proj1 (user_misery_field_is_last_match Sample.two_misery_row Sample.baggage)
             ["user_misery_300"] "user_misery_500" []).
    + reflexivity.
    + reflexivity.
    + intros k [].
  - apply (proj2 (user_misery_field_is_last_match Sample.tags_row Sample.baggage)).
    intros k [<- | [<- | []]]; reflexivity.
Defined.

(** The documented row: score 1, duration 1200. *)
Lemma user_misery_score_and_duration_witness :
  user_misery Sample.misery_row Sample.baggage
  = Ok (BarContainer
          (Tooltip
             (tct misery_title_template
                [ ("affectedUsers", JNum 10);
                  ("totalUsers", JNum 100);
                  ("miseryPercentage", JStr (Number_toFixed 10 2));
                  ("duration", JNum 1200) ])
             false "block"
             (ScoreBar 20 1 (repeat theme_purpleDarkest 10) 0))).
Proof.
  apply (proj1 user_misery_score_and_duration Sample.misery_row Sample.baggage).
  - discriminate.
  - left. reflexivity.
Defined.

(** The string formatter on an array column and on a string column. *)
Lemma string_formatter_tail_witness :
  string_renderFunc "tags" Sample.tags_row Sample.baggage
  = Ok (Container (Raw (JArr [JStr "c"])))
  /\ string_renderFunc "title" Sample.tags_row Sample.baggage
     = Ok (Container (Raw (JStr "boom"))).
Proof.
  split.
  - apply (proj1 (string_formatter_tail "tags" Sample.tags_row Sample.baggage)
             [JStr "a"; JStr "b"; JStr "c"]).
    + reflexivity.
    + discriminate.
  - apply (proj1 (proj2 (string_formatter_tail "title" Sample.tags_row Sample.baggage))).
    reflexivity.
Defined.


(** A column that is not a special field. *)
Lemma getSortField_no_meta_witness : getSortField "title" None = Some "title".
Proof.
  apply (proj1 getSortField_no_meta "title"). reflexivity.
Defined.

(** The row whose unique-user count is zero: score 30. *)
Lemma user_misery_zero_users_witness :
  Math_max (ToNumber (JNum 0)) 1 = 1%float
  /\ exists title,
      user_misery Sample.zero_users_row Sample.baggage
      = Ok (BarContainer
              (Tooltip title false "block"
                 (ScoreBar 20 30 (repeat theme_purpleDarkest 10) 0))).
Proof.
  apply (proj1 user_misery_zero_users Sample.zero_users_row Sample.baggage 0%float).
  - reflexivity.
  - reflexivity.
  - discriminate.
Defined.

(** A row without [issue.id], and a row with one. *)
Lemma issue_link_iff_truthy_witness :
  issue_renderFunc [("issue", JStr "ACME-1")] Sample.baggage
  = Ok (Container (StyledShortId "ACME-1"))
  /\ issue_renderFunc [("issue", JStr "ACME-1"); ("issue.id", JStr "42")] Sample.baggage
     = Ok (Container
             (OverflowLink "/organizations/acme/issues/42/" (JStr "42")
                (StyledShortId "ACME-1"))).
Proof.
  split.
  - apply (proj1 (issue_link_iff_truthy [("issue", JStr "ACME-1")] Sample.baggage)).
    reflexivity.
  - apply (proj1 (proj2 (issue_link_iff_truthy
                           [("issue", JStr "ACME-1"); ("issue.id", JStr "42")]
                           Sample.baggage))).
    reflexivity.
Defined.

End WorkedExamples.

(* ================================================================== *)
(** * Further properties of the sort resolver *)
(* ================================================================== *)

Section SortFieldProperties.
Context {builtins : Builtins} {imports : Imports}.

Lemma FIELD_FORMATTERS_known (fieldType : string) :
  In fieldType formatter_types ->
  exists formatter,
    lookup FIELD_FORMATTERS fieldType = Some formatter /\ isSortable formatter = true.
Proof.
  cbn [formatter_types In].
  intros [<- | [<- | [<- | [<- | [<- | [<- | [<- | []]]]]]]];
    eexists; split; reflexivity.
Qed.

Lemma FIELD_FORMATTERS_unknown (fieldType : string) :
  ~ In fieldType formatter_types -> lookup FIELD_FORMATTERS fieldType = None.
Proof.
  intros Hnot. unfold FIELD_FORMATTERS.
  repeat (rewrite lookup_cons;
          destruct (String.eqb _ fieldType) eqn:Hkey;
          [ apply String.eqb_eq in Hkey; exfalso; apply Hnot; rewrite <- Hkey;
            cbn [formatter_types In]; tauto | clear Hkey ]).
  reflexivity.
Qed.



(** X2: with metadata supplied, a field that is neither special nor an
    aggregation is sortable exactly when the metadata declares one of the
    seven formatter types for it (under the field name itself, not its
    alias).  A field the metadata does not mention is not sortable, although
    the same field is sortable when no metadata is passed at all. *)
Theorem getSortField_with_meta (field : string) (meta : MetaType) :
  lookup SPECIAL_FIELDS field = None ->
  first_prefix_match AGGREGATIONS field = None ->
  (forall fieldType,
      lookup meta field = Some fieldType ->
      In fieldType formatter_types ->
      getSortField field (Some meta) = Some field)
  /\ (forall fieldType,
        lookup meta field = Some fieldType ->
        ~ In fieldType formatter_types ->
        getSortField field (Some meta) = None)
  /\ (lookup meta field = None -> getSortField field (Some meta) = None)
  /\ getSortField field None = Some field.
Proof.
  intros Hspecial Haggregate. unfold getSortField.
  rewrite Hspecial, Haggregate.
  split; [| split; [| split]].
  - intros fieldType Hmeta Hknown. rewrite Hmeta.
    destruct (FIELD_FORMATTERS_known fieldType Hknown) as [formatter [-> ->]].
    reflexivity.
  - intros fieldType Hmeta Hunknown.
    now rewrite Hmeta, (FIELD_FORMATTERS_unknown fieldType Hunknown).
  - intros Hmeta. now rewrite Hmeta.
  - reflexivity.
Qed.


End SortFieldProperties.

(* ================================================================== *)
(** * Further properties of the formatters and special fields *)
(* ================================================================== *)

Section FormatterProperties.
Context {builtins : Builtins} {imports : Imports}.

(** A formatter looks at the row only through the value of its field, and
    not at the baggage. *)
Lemma formatter_reads_only_its_field (fieldType : string) (formatter : FieldFormatter) :
  lookup FIELD_FORMATTERS fieldType = Some formatter ->
  forall field data data' baggage baggage',
    get data field = get data' field ->
    renderFunc formatter field data baggage
    = renderFunc formatter field data' baggage'.
Proof.
  unfold FIELD_FORMATTERS. intros Hlookup field data data' baggage baggage' Hsame.
  repeat (rewrite lookup_cons in Hlookup;
          destruct (String.eqb _ fieldType);
          [ injection Hlookup as <-; cbn [renderFunc];
            unfold boolean_renderFunc, date_renderFunc, duration_renderFunc,
              integer_renderFunc, number_renderFunc, percentage_renderFunc,
              string_renderFunc;
            rewrite Hsame; reflexivity | ]).
  discriminate Hlookup.
Qed.

(** X4: for a field that is neither special nor a misery function, the
    renderer that [getFieldRenderer] returns depends on the row only through
    the value stored under the aggregate alias of the field, and not on the
    baggage: two rows that agree on that key render the same. *)
Theorem renderer_reads_only_alias (field : string) (meta : MetaType)
        (data data' : EventData) (baggage baggage' : RenderFunctionBaggage) :
  lookup SPECIAL_FIELDS field = None ->
  startsWith (getAggregateAlias field) "user_misery" = false ->
  get data (getAggregateAlias field) = get data' (getAggregateAlias field) ->
  getFieldRenderer field meta data baggage
  = getFieldRenderer field meta data' baggage'.
Proof.
  intros Hspecial Hmisery Hsame. unfold getFieldRenderer.
  rewrite Hspecial, first_prefix_match_SPECIAL_FUNCTIONS, Hmisery.
  assert (Hstring : partial string_renderFunc (getAggregateAlias field) data baggage
                    = partial string_renderFunc (getAggregateAlias field) data' baggage').
  { unfold partial, string_renderFunc. now rewrite Hsame. }
  destruct (lookup meta (getAggregateAlias field)) as [fieldType |]; [| exact Hstring].
  destruct (lookup FIELD_FORMATTERS fieldType) as [formatter |] eqn:Hformatter;
    [| exact Hstring].
  unfold partial. now apply (formatter_reads_only_its_field fieldType).
Qed.

(** Reading a key the row does not own. *)
Lemma get_of_missing_key (data : EventData) (field : string) :
  lookup data field = None ->
  get data field = if is_Object_prototype_key field then JNative field else JUndefined.
Proof.
  intros Hmissing. unfold get. now rewrite Hmissing.
Qed.

(** X5: what each formatter shows for a field the row does not own.  When
    the field does not name a member of [Object.prototype] the value read is
    [undefined]: [boolean] shows "no", [date] and the four numeric types show
    the placeholder, and [string] puts [undefined] into its container, which
    lays out as nothing.  When it does name one, such as [constructor], the
    inherited member is read, which is truthy and not a number: [boolean]
    shows "yes", [date] formats it, [string] passes it on, and the four
    numeric types still show the placeholder. *)
Theorem formatters_on_missing_field (fieldType : string) (formatter : FieldFormatter)
        (field : string) (data : EventData) (baggage : RenderFunctionBaggage) :
  lookup FIELD_FORMATTERS fieldType = Some formatter ->
  lookup data field = None ->
  (is_Object_prototype_key field = false ->
   renderFunc formatter field data baggage
   = Ok (if String.eqb fieldType "boolean" then Container (Raw (JStr (t "no")))
         else if String.eqb fieldType "date" then Container emptyValue
         else if String.eqb fieldType "string" then Container (Raw JUndefined)
         else NumberContainer emptyValue))
  /\ (is_Object_prototype_key field = true ->
      renderFunc formatter field data baggage
      = Ok (if String.eqb fieldType "boolean" then Container (Raw (JStr (t "yes")))
            else if String.eqb fieldType "date"
                 then Container
                        (getDynamicText (StyledDateTime (JNative field)) "timestamp")
            else if String.eqb fieldType "string" then Container (Raw (JNative field))
            else NumberContainer emptyValue))
  /\ child_nodes JUndefined = [].
Proof.
  unfold FIELD_FORMATTERS. intros Hlookup Hmissing.
  pose proof (get_of_missing_key data field Hmissing) as Hget.
  split; [| split; [| reflexivity]]; intros Hkey; rewrite Hkey in Hget;
    repeat (rewrite lookup_cons in Hlookup;
            destruct (String.eqb _ fieldType) eqn:Htype;
            [ apply String.eqb_eq in Htype; subst fieldType;
              injection Hlookup as <-; cbn [renderFunc];
              unfold boolean_renderFunc, date_renderFunc, duration_renderFunc,
                integer_renderFunc, number_renderFunc, percentage_renderFunc,
                string_renderFunc;
              rewrite Hget; reflexivity | clear Htype ]);
    discriminate Hlookup.
Qed.

(** X6: on any array the string formatter shows at most one element: the
    slice holding the last element, or the empty slice for an empty array,
    which lays out as nothing. *)
Theorem string_formatter_any_array (field : string) (data : EventData)
        (baggage : RenderFunctionBaggage) (l : list JsValue) :
  get data field = JArr l ->
  exists tail,
    string_renderFunc field data baggage = Ok (Container (Raw (JArr tail)))
    /\ List.length tail <= 1
    /\ (forall x, In x tail -> x = last l JUndefined /\ In x l)
    /\ (l = [] -> child_nodes (JArr tail) = []).
Proof.
  intros Harray. unfold string_renderFunc. rewrite Harray.
  cbn [Array_isArray call_slice bind].
  destruct l as [| x rest].
  - exists []. split; [reflexivity | split; [| split]].
    + cbn. lia.
    + intros y [].
    + reflexivity.
  - assert (Hne : x :: rest <> []) by discriminate.
    rewrite (Array_slice_last (x :: rest) JUndefined Hne).
    exists [last (x :: rest) JUndefined].
    split; [reflexivity | split; [| split]].
    + cbn. lia.
    + intros y [<- | []]. split; [reflexivity |].
      destruct (exists_last Hne) as [front [final Hsplit]].
      rewrite Hsplit, last_last. apply in_or_app. right. now left.
    + intros Hempty. discriminate Hempty.
Qed.

Lemma strict_eq_string (s : string) (v : JsValue) :
  strict_eq (JStr s) v = true <-> v = JStr s.
Proof.
  split.
  - destruct v; cbn [strict_eq]; try discriminate.
    intros Heq. apply String.eqb_eq in Heq. now subst.
  - intros ->. cbn [strict_eq]. apply String.eqb_refl.
Qed.

(** X7: the badge the [project] renderer's callback builds: a project record
    only if it is in the list handed to the callback and its slug is the
    row's [project] value; otherwise, and so always when that value is not a
    string or the list is empty, a badge carrying only the row's value. *)
Theorem project_badge_lookup (data : EventData) (baggage : RenderFunctionBaggage) :
  exists children,
    project_renderFunc data baggage
    = Ok (Container
            (Projects (slug (organization baggage)) [get data "project"] children))
    /\ forall projects,
        exists badge,
          children projects = Ok (ProjectBadge badge 16)
          /\ match badge with
             | FoundProject p =>
                 In p projects /\ get data "project" = JStr (project_slug p)
             | SlugOnly v =>
                 v = get data "project"
                 /\ forall p, In p projects ->
                              get data "project" <> JStr (project_slug p)
             end.
Proof.
  eexists. split; [reflexivity |].
  intros projects. cbv beta.
  destruct (find (fun p => strict_eq (JStr (project_slug p)) (get data "project"))
                 projects) as [p |] eqn:Hfind.
  - exists (FoundProject p). split; [reflexivity |].
    apply find_some in Hfind as [Hin Heq].
    split; [exact Hin | now apply strict_eq_string].
  - exists (SlugOnly (get data "project")). split; [reflexivity |].
    split; [reflexivity |].
    intros p Hin Heq.
    pose proof (find_none _ _ Hfind p Hin) as Hneq. cbv beta in Hneq.
    apply strict_eq_string in Heq. congruence.
Qed.

(** X8: when the row's [issue.id] is truthy, the [issue] and [issue.id]
    renderers link to the same target under the same label.  The [issue.id]
    renderer has no guard of its own: for a row without [issue.id] it still
    builds a link, whose target ends in [undefined]. *)
Theorem issue_renderers_link_alike (data : EventData) (baggage : RenderFunctionBaggage) :
  (ToBoolean (get data "issue.id") = true ->
   exists target aria_label badge text,
     issue_renderFunc data baggage
     = Ok (Container (OverflowLink target aria_label badge))
     /\ issue_id_renderFunc data baggage
        = Ok (Container (OverflowLink target aria_label text)))
  /\ (lookup data "issue.id" = None ->
      issue_id_renderFunc data baggage
      = Ok (Container
              (OverflowLink
                 ("/organizations/" ++ slug (organization baggage)
                                    ++ "/issues/undefined/")%string
                 JUndefined (Raw JUndefined)))).
Proof.
  split.
  - intros Htruthy. unfold issue_renderFunc, issue_id_renderFunc.
    rewrite Htruthy. cbn [negb]. do 4 eexists. split; reflexivity.
  - intros Hmissing. unfold issue_id_renderFunc, issue_target, get.
    rewrite Hmissing. reflexivity.
Qed.

(** X16: what the special fields show on a row that lacks their key: [id]
    returns [null]; [issue], lacking its id too, a badge reading
    "undefined"; [project] a badge carrying only [undefined], whatever
    projects the lookup finds; [user] the dimmed placeholder; [release]
    [undefined], which lays out as nothing. *)
Theorem special_fields_on_missing_values (data : EventData)
        (baggage : RenderFunctionBaggage) :
  (lookup data "id" = None -> id_renderFunc data baggage = Ok (Raw JNull))
  /\ (lookup data "issue.id" = None -> lookup data "issue" = None ->
      issue_renderFunc data baggage = Ok (Container (StyledShortId "undefined")))
  /\ (lookup data "project" = None ->
      exists children,
        project_renderFunc data baggage
        = Ok (Container (Projects (slug (organization baggage)) [JUndefined] children))
        /\ forall projects,
            children projects = Ok (ProjectBadge (SlugOnly JUndefined) 16))
  /\ (lookup data "user" = None ->
      user_renderFunc data baggage = Ok (EmptyValueContainer emptyValue))
  /\ (lookup data "release" = None ->
      release_renderFunc data baggage = Ok (Raw JUndefined)
      /\ child_nodes JUndefined = []).
Proof.
  split; [| split; [| split; [| split]]].
  - intros Hmissing. unfold id_renderFunc, get. now rewrite Hmissing.
  - intros Hid Hissue. unfold issue_renderFunc, get. now rewrite Hid, Hissue.
  - intros Hmissing. unfold project_renderFunc, get. rewrite Hmissing.
    change (is_Object_prototype_key "project") with false. cbv iota.
    eexists. split; [reflexivity |].
    intros projects. cbv beta.
    replace (find (fun p => strict_eq (JStr (project_slug p)) JUndefined) projects)
      with (@None Project); [reflexivity |].
    symmetry. apply find_none_iff. reflexivity.
  - intros Hmissing. unfold user_renderFunc, get. now rewrite Hmissing.
  - intros Hmissing. unfold release_renderFunc, get. now rewrite Hmissing.
Qed.

End FormatterProperties.

(* ================================================================== *)
(** * Further properties of the [user_misery] renderer *)
(* ================================================================== *)

Section MiseryFieldProperties.
Context {builtins : Builtins} {imports : Imports}.

Lemma key_has_value {A : Type} (o : list (string * A)) (key : string) :
  In key (keys o) -> exists v, lookup o key = Some v.
Proof.
  induction o as [| [k v] rest IH]; cbn [keys map In lookup fst].
  - intros [].
  - intros [-> | Hin].
    + rewrite String.eqb_refl. now exists v.
    + destruct (String.eqb k key); [now exists v | now apply IH].
Qed.

(** X9: the misery field is empty exactly when no key of the row starts
    with [user_misery]; otherwise it is a key of the row that starts with
    [user_misery], so the value read under it is a value the row holds. *)
Theorem find_userMiseryField_is_row_key (data : EventData) :
  (find_userMiseryField data = ""
   <-> forall k, In k (keys data) -> startsWith k "user_misery" = false)
  /\ (find_userMiseryField data <> "" ->
      In (find_userMiseryField data) (keys data)
      /\ startsWith (find_userMiseryField data) "user_misery" = true
      /\ exists v, lookup data (find_userMiseryField data) = Some v).
Proof.
  unfold find_userMiseryField. rewrite misery_loop_is_search_from_end.
  destruct (find is_misery_key (rev (keys data))) as [field |] eqn:Hfind.
  - apply find_some in Hfind as [Hin Hkey]. apply in_rev in Hin.
    split.
    + split.
      * intros ->. discriminate Hkey.
      * intros Hall. unfold is_misery_key in Hkey.
        rewrite (Hall field Hin) in Hkey. discriminate Hkey.
    + intros _. split; [exact Hin | split; [exact Hkey |]].
      now apply key_has_value.
  - split.
    + split; [| reflexivity].
      intros _ k Hin. apply (find_none _ _ Hfind). now apply in_rev in Hin.
    + intros Hne. now contradiction Hne.
Qed.

(** X10: with a misery key in the row and a unique-user count that is falsy
    and not zero, as a missing count is, no score bar is drawn: a numeric
    misery value is shown through [formatFloat] with four digits, anything
    else as the placeholder. *)
Theorem user_misery_without_count (data : EventData) (baggage : RenderFunctionBaggage) :
  find_userMiseryField data <> "" ->
  ToBoolean (get data "count_unique_user") = false ->
  strict_neq_zero (get data "count_unique_user") = true ->
  user_misery data baggage
  = Ok (NumberContainer
          match get data (find_userMiseryField data) with
          | JNum x => Raw (JNum (formatFloat x 4))
          | _ => emptyValue
          end)
  /\ (lookup data "count_unique_user" = None ->
      ToBoolean (get data "count_unique_user") = false
      /\ strict_neq_zero (get data "count_unique_user") = true).
Proof.
  intros Hfield Hfalsy Hnonzero. split.
  - unfold user_misery, user_misery_after_loop.
    apply String.eqb_neq in Hfield. rewrite Hfield, Hfalsy, Hnonzero. reflexivity.
  - intros Hmissing. unfold get. rewrite Hmissing. split; reflexivity.
Qed.

(** ** Parsing the misery limit *)

(** The digits of a decimal numeral, read back with an accumulator. *)
Lemma leading_digits_positive (d : Decimal.uint) (count : nat) (acc : positive) :
  leading_digits (NilEmpty.string_of_uint d) count (Z.pos acc)
  = (count + Decimal.nb_digits d, Z.pos (Pos.of_uint_acc d acc)).
Proof.
  revert count acc.
  induction d as [| d IH | d IH | d IH | d IH | d IH | d IH | d IH | d IH | d IH | d IH];
    intros count acc;
    cbn [NilEmpty.string_of_uint leading_digits Decimal.nb_digits Pos.of_uint_acc];
    try (rewrite Nat.add_0_r; reflexivity);
    change (digit_of "0") with (Some 0%Z); change (digit_of "1") with (Some 1%Z);
    change (digit_of "2") with (Some 2%Z); change (digit_of "3") with (Some 3%Z);
    change (digit_of "4") with (Some 4%Z); change (digit_of "5") with (Some 5%Z);
    change (digit_of "6") with (Some 6%Z); change (digit_of "7") with (Some 7%Z);
    change (digit_of "8") with (Some 8%Z); change (digit_of "9") with (Some 9%Z);
    cbv iota beta;
    match goal with
    | |- leading_digits _ _ ?value = (_, Z.pos (Pos.of_uint_acc _ ?acc')) =>
        replace value with (Z.pos acc') by lia
    end;
    rewrite IH; f_equal; lia.
Qed.

Lemma leading_digits_decimal (d : Decimal.uint) (count : nat) :
  leading_digits (NilEmpty.string_of_uint d) count 0
  = (count + Decimal.nb_digits d, Z.of_N (Pos.of_uint d)).
Proof.
  revert count.
  induction d as [| d IH | d IH | d IH | d IH | d IH | d IH | d IH | d IH | d IH | d IH];
    intros count;
    cbn [NilEmpty.string_of_uint leading_digits Decimal.nb_digits Pos.of_uint];
    try (rewrite Nat.add_0_r; reflexivity);
    change (digit_of "0") with (Some 0%Z); change (digit_of "1") with (Some 1%Z);
    change (digit_of "2") with (Some 2%Z); change (digit_of "3") with (Some 3%Z);
    change (digit_of "4") with (Some 4%Z); change (digit_of "5") with (Some 5%Z);
    change (digit_of "6") with (Some 6%Z); change (digit_of "7") with (Some 7%Z);
    change (digit_of "8") with (Some 8%Z); change (digit_of "9") with (Some 9%Z);
    cbv iota beta;
    change (10 * 0 + 0)%Z with 0%Z; change (10 * 0 + 1)%Z with 1%Z;
    change (10 * 0 + 2)%Z with 2%Z; change (10 * 0 + 3)%Z with 3%Z;
    change (10 * 0 + 4)%Z with 4%Z; change (10 * 0 + 5)%Z with 5%Z;
    change (10 * 0 + 6)%Z with 6%Z; change (10 * 0 + 7)%Z with 7%Z;
    change (10 * 0 + 8)%Z with 8%Z; change (10 * 0 + 9)%Z with 9%Z;
    first [ rewrite IH | rewrite leading_digits_positive ];
    cbn [Z.of_N]; f_equal; lia.
Qed.

Lemma decimal_has_no_underscore (d : Decimal.uint) :
  includes (NilEmpty.string_of_uint d) "_" = false.
Proof.
  induction d; cbn [NilEmpty.string_of_uint includes]; try reflexivity;
    rewrite IHd; reflexivity.
Qed.

(** [parseInt] reads a decimal numeral back as the number it denotes. *)
Lemma parseInt10_decimal (d : Decimal.uint) :
  d <> Decimal.Nil ->
  parseInt10 (NilEmpty.string_of_uint d) = of_Z (Z.of_N (Pos.of_uint d)).
Proof.
  intros Hne. unfold parseInt10.
  assert (Hshape : let s := NilEmpty.string_of_uint d in
                   trimStart s = s
                   /\ match s with
                      | String "-" rest => (true, rest)
                      | String "+" rest => (false, rest)
                      | _ => (false, s)
                      end = (false, s)).
  { destruct d; [congruence | ..]; split; reflexivity. }
  cbv zeta in Hshape. destruct Hshape as [-> ->].
  rewrite leading_digits_decimal.
  destruct d; [congruence | ..]; reflexivity.
Qed.

(** X11: for a misery key that ends in an underscore followed by the decimal
    numeral of [n], the misery limit parsed from the key is the number [n],
    whatever precedes that underscore. *)
Theorem misery_limit_of_decimal_suffix (front : string) (n : N) :
  parseInt10 (misery_suffix (front ++ String "_" (NilZero.string_of_uint (N.to_uint n))))
  = of_Z (Z.of_N n).
Proof.
  assert (Hne : N.to_uint n <> Decimal.Nil).
  { destruct n as [| p]; [discriminate | apply DecimalPos.Unsigned.to_uint_nonnil]. }
  assert (Hstring : NilZero.string_of_uint (N.to_uint n)
                    = NilEmpty.string_of_uint (N.to_uint n)).
  { unfold NilZero.string_of_uint. destruct (N.to_uint n); [congruence | ..]; reflexivity. }
  rewrite Hstring, misery_suffix_trailing by apply decimal_has_no_underscore.
  rewrite (parseInt10_decimal _ Hne).
  change (Pos.of_uint (N.to_uint n)) with (N.of_uint (N.to_uint n)).
  now rewrite DecimalN.Unsigned.of_to.
Qed.

(** X15: the divisor [Math.max(uniqueUsers, 1)] of the score and of the
    percentage is never zero and never below one: it is NaN when the count
    converts to NaN and at least 1 otherwise. *)
Theorem misery_divisor_at_least_one (uniqueUsers : JsValue) :
  (PrimFloat.is_nan (ToNumber uniqueUsers) = true ->
   PrimFloat.is_nan (Math_max (ToNumber uniqueUsers) 1) = true)
  /\ (PrimFloat.is_nan (ToNumber uniqueUsers) = false ->
      PrimFloat.leb 1 (Math_max (ToNumber uniqueUsers) 1) = true).
Proof.
  generalize (ToNumber uniqueUsers) as a. intros a. unfold Math_max.
  change (PrimFloat.is_nan 1) with false.
  split; intros Hnan; rewrite Hnan; cbn [orb]; [reflexivity |].
  destruct (PrimFloat.ltb 1 a) eqn:Habove.
  - rewrite FloatAxioms.leb_spec. rewrite FloatAxioms.ltb_spec in Habove.
    unfold SFleb. unfold SFltb in Habove.
    destruct (SFcompare (Prim2SF 1) (Prim2SF a)) as [[ | | ] |];
      (reflexivity || discriminate Habove).
  - destruct (PrimFloat.ltb a 1) eqn:Hbelow; [reflexivity |].
    destruct (PrimFloat.get_sign a); [reflexivity |].
    unfold PrimFloat.is_nan in Hnan.
    rewrite FloatAxioms.eqb_spec in Hnan.
    rewrite FloatAxioms.ltb_spec in Habove, Hbelow.
    rewrite FloatAxioms.leb_spec.
    let one := eval vm_compute in (Prim2SF 1) in
    change (Prim2SF 1) with one in *.
    unfold SFleb. unfold SFltb in Habove, Hbelow. unfold SFeqb in Hnan.
    destruct (Prim2SF a) as [sign | sign | | sign m e].
    + discriminate Hbelow.
    + destruct sign; [discriminate Hbelow | discriminate Habove].
    + discriminate Hnan.
    + destruct sign; [discriminate Hbelow |].
      cbn [SFcompare] in *.
      rewrite (Z.compare_antisym e) in Habove |- *.
      destruct (e ?= -52)%Z; cbn [CompOpp] in *;
        try discriminate Habove; try discriminate Hbelow.
      assert (Hanti : Pos.compare_cont Eq 4503599627370496 m
                      = CompOpp (Pos.compare_cont Eq m 4503599627370496))
        by (symmetry; apply (Pos.compare_cont_antisym _ _ Eq)).
      rewrite Hanti in Habove |- *. clear Hanti.
      destruct (Pos.compare_cont Eq m 4503599627370496); cbn [CompOpp] in *;
        (reflexivity || discriminate Habove || discriminate Hbelow).
Qed.

End MiseryFieldProperties.

(* ================================================================== *)
(** * Further properties of the thread selector *)
(* ================================================================== *)

Section SelectionProperties.
Context {builtins : Builtins}.
Variable Event : Type.
Variable EntryTypeData : Type.
Variable filterThreadInfo : ThreadSelector.Thread -> Event -> ThreadSelector.ThreadInfo.
Variable getThreadException : ThreadSelector.Thread -> Event -> option EntryTypeData.

Local Abbreviation Thread := ThreadSelector.Thread.
Local Abbreviation getDropDownItem :=
  (ThreadSelector.getDropDownItem Event EntryTypeData filterThreadInfo getThreadException).
Local Abbreviation items :=
  (ThreadSelector.items Event EntryTypeData filterThreadInfo getThreadException).
Local Abbreviation renderButton :=
  (ThreadSelector.renderButton Event EntryTypeData filterThreadInfo).
Local Abbreviation handleOnChange := (ThreadSelector.handleOnChange EntryTypeData).

(** The entry built for a thread remembers the thread and its info. *)
Lemma getDropDownItem_thread (event : Event) (th : Thread) :
  ThreadSelector.thread (fst (getDropDownItem event th)) = th
  /\ ThreadSelector.threadInfo (fst (getDropDownItem event th))
     = filterThreadInfo th event.
Proof.
  unfold ThreadSelector.getDropDownItem, ThreadSelector.bindT,
    ThreadSelector.do_filterThreadInfo, ThreadSelector.do_getThreadException,
    ThreadSelector.ret.
  destruct (ThreadSelector.crashed th); split; reflexivity.
Qed.

(** X12: choosing an entry of the dropdown reports to [onChange] a thread of
    the list, the one the entry was built from; without an [onChange] nothing
    is reported. *)
Theorem selection_reports_listed_thread {R : Type} (threads : list Thread)
        (event : Event) (onChange : Thread -> R)
        (item : ThreadSelector.DropDownItem EntryTypeData) :
  In item (fst (items threads event)) ->
  (exists th,
      In th threads
      /\ item = fst (getDropDownItem event th)
      /\ handleOnChange (Some onChange) item = Some (onChange th))
  /\ handleOnChange (@None (Thread -> R)) item = None.
Proof.
  intros Hin. split; [| reflexivity].
  unfold ThreadSelector.items in Hin. rewrite mapT_fst in Hin.
  apply in_map_iff in Hin as [th [<- Hth]].
  exists th. split; [exact Hth | split; [reflexivity |]].
  unfold ThreadSelector.handleOnChange.
  now rewrite (proj1 (getDropDownItem_thread event th)).
Qed.

(** X13: building the entries calls [filterThreadInfo] once per thread and
    [getThreadException] once per crashed thread, in list order, each thread's
    exception right after its info; so the number of helper calls is the
    number of threads plus the number of crashed ones, and there are as many
    entries as threads. *)
Theorem items_call_trace (threads : list Thread) (event : Event) :
  snd (items threads event)
  = flat_map
      (fun th =>
         ThreadSelector.CallFilterThreadInfo th event
         :: (if ThreadSelector.crashed th
             then [ThreadSelector.CallGetThreadException th event]
             else []))
      threads
  /\ List.length (snd (items threads event))
     = List.length threads + List.length (filter ThreadSelector.crashed threads)
  /\ List.length (fst (items threads event)) = List.length threads.
Proof.
  unfold ThreadSelector.items. rewrite mapT_snd, mapT_fst.
  split; [| split].
  - induction threads as [| th rest IH]; cbn [flat_map]; [reflexivity |].
    now rewrite getDropDownItem_calls, IH.
  - induction threads as [| th rest IH]; cbn [flat_map filter List.length];
      [reflexivity |].
    rewrite length_app, IH, getDropDownItem_calls.
    destruct (ThreadSelector.crashed th); cbn [List.length]; lia.
  - apply length_map.
Qed.

(** X14: with nothing selected the button shows the active thread, and
    computing that costs one [filterThreadInfo] call; with the entry of a
    thread selected it shows what it would show were that thread active and
    nothing selected, and calls no helper. *)
Theorem button_shows_selection (activeThread th : Thread) (event : Event)
        (isOpen : bool) :
  ThreadSelector.button_child (fst (renderButton activeThread event isOpen None))
  = {| ThreadSelector.selected_id := ThreadSelector.id activeThread;
       ThreadSelector.selected_details := filterThreadInfo activeThread event |}
  /\ snd (renderButton activeThread event isOpen None)
     = [ThreadSelector.CallFilterThreadInfo activeThread event]
  /\ fst (renderButton activeThread event isOpen
            (Some (fst (getDropDownItem event th))))
     = fst (renderButton th event isOpen None)
  /\ snd (renderButton activeThread event isOpen
            (Some (fst (getDropDownItem event th))))
     = []
  /\ ThreadSelector.button_isOpen (fst (renderButton activeThread event isOpen None))
     = isOpen.
Proof.
  unfold ThreadSelector.renderButton, ThreadSelector.bindT,
    ThreadSelector.do_filterThreadInfo, ThreadSelector.ret.
  cbn [fst snd ThreadSelector.button_child ThreadSelector.button_isOpen app].
  destruct (getDropDownItem_thread event th) as [-> ->].
  repeat split.
Qed.

End SelectionProperties.

(* ================================================================== *)
(** * The further properties at concrete inputs *)
(* ================================================================== *)

Section FurtherExamples.

Local Existing Instance Sample.builtins.
Local Existing Instance Sample.imports.


(** A plain column with a declared string type, an undeclared type, and no
    declaration. *)
Lemma getSortField_with_meta_witness :
  getSortField "title" (Some [("title", "string")]) = Some "title"
  /\ getSortField "title" (Some [("title", "never")]) = None
  /\ getSortField "title" (Some []) = None.
Proof.
  split; [| split].
  - apply (proj1 (@getSortField_with_meta Sample.builtins Sample.imports
                    "title" [("title", "string")]
                    eq_refl eq_refl) "string"); [reflexivity |].
    cbn. tauto.
  - apply (proj1 (proj2 (@getSortField_with_meta Sample.builtins Sample.imports
                           "title" [("title", "never")]
                           eq_refl eq_refl)) "never"); [reflexivity |].
    cbn. intros [H | [H | [H | [H | [H | [H | [H | []]]]]]]]; discriminate H.
  - exact (proj1 (proj2 (proj2 (@getSortField_with_meta Sample.builtins Sample.imports
                                  "title" [] eq_refl eq_refl)))
             eq_refl).
Defined.


(** Two rows that agree on [title]. *)
Lemma renderer_reads_only_alias_witness :
  getFieldRenderer "title" [] Sample.tags_row Sample.baggage
  = getFieldRenderer "title" [] [("title", JStr "boom")] Sample.baggage.
Proof.
  exact (@renderer_reads_only_alias Sample.builtins Sample.imports
           "title" [] Sample.tags_row [("title", JStr "boom")]
           Sample.baggage Sample.baggage eq_refl eq_refl eq_refl).
Defined.

(** The integer formatter on a column the row does not have, and the
    boolean formatter on [constructor]. *)
Lemma formatters_on_missing_field_witness :
  integer_renderFunc "count" Sample.tags_row Sample.baggage
  = Ok (NumberContainer emptyValue)
  /\ boolean_renderFunc "constructor" Sample.tags_row Sample.baggage
     = Ok (Container (Raw (JStr (t "yes")))).
Proof.
  split.
  - exact (proj1 (@formatters_on_missing_field Sample.imports "integer"
                    {| isSortable := true; renderFunc := integer_renderFunc |}
                    "count" Sample.tags_row Sample.baggage eq_refl eq_refl)
             eq_refl).
  - exact (proj1 (proj2 (@formatters_on_missing_field Sample.imports "boolean"
                           {| isSortable := true; renderFunc := boolean_renderFunc |}
                           "constructor" Sample.tags_row Sample.baggage
                           eq_refl eq_refl))
             eq_refl).
Defined.

(** The array column of the sample row. *)
Lemma string_formatter_any_array_witness :
  exists tail,
    string_renderFunc "tags" Sample.tags_row Sample.baggage
    = Ok (Container (Raw (JArr tail)))
    /\ List.length tail <= 1
    /\ (forall x, In x tail ->
                  x = last [JStr "a"; JStr "b"; JStr "c"] JUndefined
                  /\ In x [JStr "a"; JStr "b"; JStr "c"])
    /\ ([JStr "a"; JStr "b"; JStr "c"] = [] -> child_nodes (JArr tail) = []).
Proof.
  exact (string_formatter_any_array "tags" Sample.tags_row Sample.baggage
           [JStr "a"; JStr "b"; JStr "c"] eq_refl).
Defined.

(** A row with an [issue.id]. *)
Lemma issue_renderers_link_alike_witness :
  exists target aria_label badge text,
    issue_renderFunc [("issue", JStr "ACME-1"); ("issue.id", JStr "42")] Sample.baggage
    = Ok (Container (OverflowLink target aria_label badge))
    /\ issue_id_renderFunc [("issue", JStr "ACME-1"); ("issue.id", JStr "42")]
         Sample.baggage
       = Ok (Container (OverflowLink target aria_label text)).
Proof.
  exact (proj1 (issue_renderers_link_alike
                  [("issue", JStr "ACME-1"); ("issue.id", JStr "42")] Sample.baggage)
           eq_refl).
Defined.

(** The row with two misery columns. *)
Lemma find_userMiseryField_is_row_key_witness :
  In (find_userMiseryField Sample.two_misery_row) (keys Sample.two_misery_row)
  /\ startsWith (find_userMiseryField Sample.two_misery_row) "user_misery" = true
  /\ exists v,
      lookup Sample.two_misery_row (find_userMiseryField Sample.two_misery_row)
      = Some v.
Proof.
  apply (proj2 (find_userMiseryField_is_row_key Sample.two_misery_row)).
  discriminate.
Defined.

(** The row with a misery column and no count. *)
Lemma user_misery_without_count_witness :
  user_misery Sample.no_count_row Sample.baggage
  = Ok (NumberContainer (Raw (JNum 3))).
Proof.
  apply (proj1 (@user_misery_without_count Sample.builtins Sample.imports
                  Sample.no_count_row Sample.baggage
                  ltac:(discriminate) eq_refl eq_refl)).
Defined.

(** Choosing the entry of the main thread. *)
Lemma selection_reports_listed_thread_witness :
  exists th,
    In th [Sample.main_thread; Sample.worker_thread]
    /\ fst (ThreadSelector.getDropDownItem unit string Sample.filterThreadInfo
              Sample.getThreadException tt Sample.main_thread)
       = fst (ThreadSelector.getDropDownItem unit string Sample.filterThreadInfo
                Sample.getThreadException tt th)
    /\ ThreadSelector.handleOnChange string (Some (fun chosen => chosen))
         (fst (ThreadSelector.getDropDownItem unit string Sample.filterThreadInfo
                 Sample.getThreadException tt Sample.main_thread))
       = Some th.
Proof.
  apply (proj1 (selection_reports_listed_thread unit string Sample.filterThreadInfo
                  Sample.getThreadException
                  [Sample.main_thread; Sample.worker_thread] tt (fun chosen => chosen)
                  (fst (ThreadSelector.getDropDownItem unit string
                          Sample.filterThreadInfo Sample.getThreadException tt
                          Sample.main_thread))
                  (or_introl eq_refl))).
Defined.

(** A count of zero: the divisor is 1. *)
Lemma misery_divisor_at_least_one_witness :
  PrimFloat.leb 1 (Math_max (ToNumber (JNum 0)) 1) = true.
Proof.
  exact (proj2 (@misery_divisor_at_least_one Sample.builtins (JNum 0)) eq_refl).
Defined.

(** The sample row has neither [user] nor [release]. *)
Lemma special_fields_on_missing_values_witness :
  user_renderFunc Sample.tags_row Sample.baggage = Ok (EmptyValueContainer emptyValue)
  /\ release_renderFunc Sample.tags_row Sample.baggage = Ok (Raw JUndefined).
Proof.
  pose proof (@special_fields_on_missing_values Sample.builtins Sample.imports
                Sample.tags_row Sample.baggage) as Hall.
  split.
  - exact (proj1 (proj2 (proj2 (proj2 Hall))) eq_refl).
  - exact (proj1 (proj2 (proj2 (proj2 (proj2 Hall))) eq_refl)).
Defined.

End FurtherExamples.
